(** * The IPython executor of the sandbox container: execution and capture

    A shallow embedding of
    [packages/sandbox-container/src/runtime/executors/python/ipython_executor.py]:
    the functions [capture_matplotlib_figures], [execute_code] and [main],
    together with the part of Python's [json] module they rely on. *)

From Stdlib Require Import ZArith String Ascii List Bool Lia.
From Stdlib Require Import DecimalString.
From Stdlib Require DecimalFacts DecimalPos.
From stdpp Require Import base option gmap strings list.

Set Warnings "-register-all".

Local Open Scope string_scope.
Local Open Scope Z_scope.
Local Open Scope list_scope.

(** ** Python values *)

(** The Python values the executor handles.  [POpaque ty n] is any object
    whose class is none of the JSON-native ones (a set, a [bytes] object, a
    figure, a data frame, ...): [ty] is the name of its class and [n] its
    identity.  A [dict] keeps its items in insertion order.  Floating-point
    numbers are left out. *)
Inductive pyval : Type :=
  | PNone
  | PBool (b : bool)
  | PInt (n : Z)
  | PStr (s : string)
  | PList (items : list pyval)
  | PTuple (items : list pyval)
  | PDict (items : list (pyval * pyval))
  | POpaque (ty : string) (ident : N).

(** [o.__class__.__name__] *)
Definition class_name (v : pyval) : string :=
  match v with
  | PNone => "NoneType"
  | PBool _ => "bool"
  | PInt _ => "int"
  | PStr _ => "str"
  | PList _ => "list"
  | PTuple _ => "tuple"
  | PDict _ => "dict"
  | POpaque ty _ => ty
  end.

(** [x is None] *)
Definition is_None (v : pyval) : bool :=
  match v with PNone => true | _ => false end.

(** [isinstance(x, (dict, list))] *)
Definition is_dict_or_list (v : pyval) : bool :=
  match v with PDict _ | PList _ => true | _ => false end.

(** A raised exception: the name of its class, [str(e)], the entries of
    [traceback.format_tb(e.__traceback__)] and the text that
    [traceback.format_exc()] gives while it is being handled. *)
Record exn : Type := Exn {
  exn_class : string;
  exn_message : string;
  exn_tb : list string;
  exn_format_exc : string
}.

(** The [TypeError] that [json.dumps] raises; it has no user frames. *)
Definition TypeError (msg : string) : exn :=
  {| exn_class := "TypeError"; exn_message := msg; exn_tb := [];
     exn_format_exc :=
       "Traceback (most recent call last):" +:+ String "010" "TypeError: " +:+ msg
         +:+ String "010" "" |}.

(** [AttributeError], raised by [request.get] on a request that is no dict. *)
Definition AttributeError (msg : string) : exn :=
  {| exn_class := "AttributeError"; exn_message := msg; exn_tb := [];
     exn_format_exc :=
       "Traceback (most recent call last):" +:+ String "010" "AttributeError: " +:+ msg
         +:+ String "010" "" |}.

(** ** JSON documents and [json.dumps] *)

Inductive json : Type :=
  | JNull
  | JBool (b : bool)
  | JNum (n : Z)
  | JStr (s : string)
  | JArr (items : list json)
  | JObj (members : list (string * json)).

(** Decimal text of an integer, [int.__repr__]. *)
Definition repr_int (n : Z) : string := NilZero.string_of_int (Z.to_int n).

(** The conversion of a dict key by the encoder: strings stay, [True],
    [False], [None] and integers become their JSON text, anything else is a
    [TypeError] ([skipkeys] is off). *)
Definition key_to_json (k : pyval) : exn + string :=
  match k with
  | PStr s => inr s
  | PBool true => inr "true"
  | PBool false => inr "false"
  | PNone => inr "null"
  | PInt n => inr (repr_int n)
  | _ => inl (TypeError ("keys must be str, int, float, bool or None, not "
                         +:+ class_name k))
  end.

(** The encoder of [json.dumps], up to the text: the document that the
    text denotes, or the [TypeError] for the first object, in encoding
    order, that is not serializable. *)
Fixpoint to_json (v : pyval) : exn + json :=
  match v with
  | PNone => inr JNull
  | PBool b => inr (JBool b)
  | PInt n => inr (JNum n)
  | PStr s => inr (JStr s)
  | PList l | PTuple l =>
      match (fix go (l : list pyval) : exn + list json :=
               match l with
               | [] => inr []
               | x :: l' =>
                   match to_json x with
                   | inl e => inl e
                   | inr j => match go l' with
                              | inl e => inl e
                              | inr js => inr (j :: js)
                              end
                   end
               end) l with
      | inl e => inl e
      | inr js => inr (JArr js)
      end
  | PDict kvs =>
      match (fix go (kvs : list (pyval * pyval)) : exn + list (string * json) :=
               match kvs with
               | [] => inr []
               | (k, x) :: kvs' =>
                   match key_to_json k with
                   | inl e => inl e
                   | inr s =>
                       match to_json x with
                       | inl e => inl e
                       | inr j => match go kvs' with
                                  | inl e => inl e
                                  | inr ms => inr ((s, j) :: ms)
                                  end
                       end
                   end
               end) kvs with
      | inl e => inl e
      | inr ms => inr (JObj ms)
      end
  | POpaque ty _ =>
      inl (TypeError ("Object of type " +:+ ty +:+ " is not JSON serializable"))
  end.

(** *** The text of a document *)

Definition hex_digit (n : N) : ascii :=
  if (n <? 10)%N then ascii_of_N (48 + n) else ascii_of_N (87 + n).

(** One character of a string, as [ensure_ascii] writes it: the short
    escapes, the character itself when it is printable ASCII, and
    [\u00XX] otherwise (characters are code points below 256). *)
Definition escape_char (c : ascii) : string :=
  let n := N_of_ascii c in
  if (n =? 34)%N then String "\" (String "034" "")
  else if (n =? 92)%N then "\\"
  else if (n =? 10)%N then "\n"
  else if (n =? 13)%N then "\r"
  else if (n =? 9)%N then "\t"
  else if (n =? 8)%N then "\b"
  else if (n =? 12)%N then "\f"
  else if ((32 <=? n) && (n <=? 126))%N then String c ""
  else "\u00" +:+ String (hex_digit (n / 16)) (String (hex_digit (n mod 16)) "").

Fixpoint escape_string (s : string) : string :=
  match s with
  | EmptyString => ""
  | String c s' => escape_char c +:+ escape_string s'
  end.

Definition quote : string := String "034" "".

Definition json_string (s : string) : string := quote +:+ escape_string s +:+ quote.

(** The text [json.dumps] writes for a document, with the default
    separators [", "] and [": "]. *)
Fixpoint json_text (j : json) : string :=
  match j with
  | JNull => "null"
  | JBool true => "true"
  | JBool false => "false"
  | JNum n => repr_int n
  | JStr s => json_string s
  | JArr l =>
      "[" +:+ (fix go (l : list json) : string :=
                 match l with
                 | [] => ""
                 | [x] => json_text x
                 | x :: l' => json_text x +:+ ", " +:+ go l'
                 end) l +:+ "]"
  | JObj ms =>
      "{" +:+ (fix go (ms : list (string * json)) : string :=
                 match ms with
                 | [] => ""
                 | [(k, x)] => json_string k +:+ ": " +:+ json_text x
                 | (k, x) :: ms' => json_string k +:+ ": " +:+ json_text x +:+ ", " +:+ go ms'
                 end) ms +:+ "}"
  end.

(** [json.dumps(v)]: the text, or the raised [TypeError]. *)
Definition json_dumps (v : pyval) : exn + string :=
  match to_json v with
  | inl e => inl e
  | inr j => inr (json_text j)
  end.


(** ** [json.loads]

    The decoder for the texts whose numbers are integers and whose
    characters are code points below 256: a text with a fractional number,
    with [NaN] or [Infinity], or with a [\u] escape of a larger code point
    is outside the model and has no document here. *)

Definition is_json_ws (c : ascii) : bool :=
  let n := N_of_ascii c in
  ((n =? 32) || (n =? 9) || (n =? 10) || (n =? 13))%N.

Fixpoint skip_ws (s : string) : string :=
  match s with
  | String c s' => if is_json_ws c then skip_ws s' else s
  | EmptyString => ""
  end.

Definition digit_of (c : ascii) : option (Decimal.uint → Decimal.uint) :=
  let n := N_of_ascii c in
  if (n =? 48)%N then Some Decimal.D0
  else if (n =? 49)%N then Some Decimal.D1
  else if (n =? 50)%N then Some Decimal.D2
  else if (n =? 51)%N then Some Decimal.D3
  else if (n =? 52)%N then Some Decimal.D4
  else if (n =? 53)%N then Some Decimal.D5
  else if (n =? 54)%N then Some Decimal.D6
  else if (n =? 55)%N then Some Decimal.D7
  else if (n =? 56)%N then Some Decimal.D8
  else if (n =? 57)%N then Some Decimal.D9
  else None.

(** The longest run of digits at the head of [s], and what follows it. *)
Fixpoint scan_digits (s : string) : Decimal.uint * string :=
  match s with
  | String c s' =>
      match digit_of c with
      | Some D => let '(d, r) := scan_digits s' in (D d, r)
      | None => (Decimal.Nil, s)
      end
  | EmptyString => (Decimal.Nil, "")
  end.

(** The integer of a run of digits: [0] alone, or a run that does not
    start with [0]. *)
Definition finish_number (negative : bool) (scanned : Decimal.uint * string)
  : option (Z * string) :=
  match scanned with
  | (Decimal.Nil, _) => None
  | (Decimal.D0 Decimal.Nil, r) => Some (0, r)
  | (Decimal.D0 _, _) => None
  | (d, r) => Some (if negative then - Z.of_uint d else Z.of_uint d, r)
  end.

(** An integer: an optional sign, then the digits. *)
Definition scan_number (s : string) : option (Z * string) :=
  match s with
  | String c r =>
      if (N_of_ascii c =? 45)%N then finish_number true (scan_digits r)
      else finish_number false (scan_digits s)
  | EmptyString => None
  end.

Definition hex_value (c : ascii) : option N :=
  let n := N_of_ascii c in
  if ((48 <=? n) && (n <=? 57))%N then Some (n - 48)%N
  else if ((97 <=? n) && (n <=? 102))%N then Some (n - 87)%N
  else if ((65 <=? n) && (n <=? 70))%N then Some (n - 55)%N
  else None.

Definition hex4 (a b c d : ascii) : option N :=
  match hex_value a, hex_value b, hex_value c, hex_value d with
  | Some x, Some y, Some z, Some w => Some (((x * 16 + y) * 16 + z) * 16 + w)%N
  | _, _, _, _ => None
  end.

(** The character of a short escape. *)
Definition unescape (c : ascii) : option ascii :=
  let n := N_of_ascii c in
  if (n =? 34)%N then Some (ascii_of_N 34)
  else if (n =? 92)%N then Some (ascii_of_N 92)
  else if (n =? 47)%N then Some (ascii_of_N 47)
  else if (n =? 98)%N then Some (ascii_of_N 8)
  else if (n =? 102)%N then Some (ascii_of_N 12)
  else if (n =? 110)%N then Some (ascii_of_N 10)
  else if (n =? 114)%N then Some (ascii_of_N 13)
  else if (n =? 116)%N then Some (ascii_of_N 9)
  else None.

(** A string, from the character after its opening quote: its content
    and what follows the closing quote.  A raw control character is an
    error ([strict]). *)
Fixpoint scan_string (s : string) : option (string * string) :=
  match s with
  | EmptyString => None
  | String c r =>
      if (N_of_ascii c =? 34)%N then Some ("", r)
      else if (N_of_ascii c =? 92)%N then
        match r with
        | EmptyString => None
        | String e r' =>
            if (N_of_ascii e =? 117)%N then
              match r' with
              | String h1 (String h2 (String h3 (String h4 r''))) =>
                  match hex4 h1 h2 h3 h4 with
                  | Some n =>
                      if (n <? 256)%N then
                        match scan_string r'' with
                        | Some (t, rest) => Some (String (ascii_of_N n) t, rest)
                        | None => None
                        end
                      else None
                  | None => None
                  end
              | _ => None
              end
            else
              match unescape e with
              | Some ch =>
                  match scan_string r' with
                  | Some (t, rest) => Some (String ch t, rest)
                  | None => None
                  end
              | None => None
              end
        end
      else if (N_of_ascii c <? 32)%N then None
      else
        match scan_string r with
        | Some (t, rest) => Some (String c t, rest)
        | None => None
        end
  end.

(** [s] starts with the characters of [p]: what follows them. *)
Fixpoint after_prefix (p s : string) : option string :=
  match p, s with
  | EmptyString, _ => Some s
  | String a p', String b s' => if Ascii.eqb a b then after_prefix p' s' else None
  | String _ _, EmptyString => None
  end.

(** A value at the head of [s], its members and its items; [fuel] bounds
    the number of nested calls. *)
Fixpoint scan_value (fuel : nat) (s : string) : option (json * string) :=
  match fuel with
  | O => None
  | Datatypes.S fuel' =>
      match s with
      | EmptyString => None
      | String c r =>
          if (N_of_ascii c =? 34)%N then
            match scan_string r with
            | Some (t, rest) => Some (JStr t, rest)
            | None => None
            end
          else if (N_of_ascii c =? 123)%N then
            match after_prefix "}" (skip_ws r) with
            | Some rest => Some (JObj [], rest)
            | None =>
                match scan_members fuel' (skip_ws r) with
                | Some (ms, rest) => Some (JObj ms, rest)
                | None => None
                end
            end
          else if (N_of_ascii c =? 91)%N then
            match after_prefix "]" (skip_ws r) with
            | Some rest => Some (JArr [], rest)
            | None =>
                match scan_items fuel' (skip_ws r) with
                | Some (vs, rest) => Some (JArr vs, rest)
                | None => None
                end
            end
          else
            match after_prefix "null" s with
            | Some rest => Some (JNull, rest)
            | None =>
                match after_prefix "true" s with
                | Some rest => Some (JBool true, rest)
                | None =>
                    match after_prefix "false" s with
                    | Some rest => Some (JBool false, rest)
                    | None =>
                        match scan_number s with
                        | Some (n, rest) => Some (JNum n, rest)
                        | None => None
                        end
                    end
                end
            end
      end
  end
with scan_items (fuel : nat) (s : string) : option (list json * string) :=
  match fuel with
  | O => None
  | Datatypes.S fuel' =>
      match scan_value fuel' s with
      | None => None
      | Some (v, r) =>
          match after_prefix "]" (skip_ws r) with
          | Some rest => Some ([v], rest)
          | None =>
              match after_prefix "," (skip_ws r) with
              | Some r' =>
                  match scan_items fuel' (skip_ws r') with
                  | Some (vs, rest) => Some (v :: vs, rest)
                  | None => None
                  end
              | None => None
              end
          end
      end
  end
with scan_members (fuel : nat) (s : string) : option (list (string * json) * string) :=
  match fuel with
  | O => None
  | Datatypes.S fuel' =>
      match after_prefix quote s with
      | None => None
      | Some r =>
          match scan_string r with
          | None => None
          | Some (k, r1) =>
              match after_prefix ":" (skip_ws r1) with
              | None => None
              | Some r2 =>
                  match scan_value fuel' (skip_ws r2) with
                  | None => None
                  | Some (v, r3) =>
                      match after_prefix "}" (skip_ws r3) with
                      | Some rest => Some ([(k, v)], rest)
                      | None =>
                          match after_prefix "," (skip_ws r3) with
                          | Some r' =>
                              match scan_members fuel' (skip_ws r') with
                              | Some (ms, rest) => Some ((k, v) :: ms, rest)
                              | None => None
                              end
                          | None => None
                          end
                      end
                  end
              end
          end
      end
  end.

(** The document of a text: one value, white space allowed around it and
    nothing else after it. *)
Definition json_decode (s : string) : option json :=
  match scan_value (Datatypes.S (String.length s)) (skip_ws s) with
  | Some (j, rest) =>
      match skip_ws rest with
      | EmptyString => Some j
      | String _ _ => None
      end
  | None => None
  end.

(** [d[key] = v] on the items of a dict whose keys are strings. *)
Fixpoint dict_set (items : list (pyval * pyval)) (key : string) (v : pyval)
  : list (pyval * pyval) :=
  match items with
  | [] => [(PStr key, v)]
  | (PStr k, x) :: items' =>
      if String.eqb k key then (PStr k, v) :: items'
      else (PStr k, x) :: dict_set items' key v
  | kv :: items' => kv :: dict_set items' key v
  end.

(** The Python value of a document: an object becomes a dict, filled in
    the order of the members, a later member replacing the value of an
    earlier one with the same name. *)
Fixpoint from_json (j : json) : pyval :=
  match j with
  | JNull => PNone
  | JBool b => PBool b
  | JNum n => PInt n
  | JStr s => PStr s
  | JArr l => PList (List.map from_json l)
  | JObj ms =>
      PDict ((fix go (ms : list (string * json)) (acc : list (pyval * pyval)) :=
                match ms with
                | [] => acc
                | (k, x) :: ms' => go ms' (dict_set acc k (from_json x))
                end) ms [])
  end.

Definition JSONDecodeError (msg : string) : exn :=
  {| exn_class := "JSONDecodeError"; exn_message := msg; exn_tb := [];
     exn_format_exc :=
       "Traceback (most recent call last):" +:+ String "010" "json.decoder.JSONDecodeError: "
         +:+ msg +:+ String "010" "" |}.

(** [json.loads(s)] on the texts of the model.  The message of the error
    is the one for a text whose first character starts no value; the
    position of a later error is not modelled. *)
Definition json_loads (s : string) : exn + pyval :=
  match json_decode s with
  | Some j => inr (from_json j)
  | None => inl (JSONDecodeError "Expecting value: line 1 column 1 (char 0)")
  end.

(** ** [base64.b64encode] *)

Definition b64_char (n : N) : ascii :=
  if (n <? 26)%N then ascii_of_N (65 + n)
  else if (n <? 52)%N then ascii_of_N (71 + n)
  else if (n <? 62)%N then ascii_of_N (n - 4)
  else if (n =? 62)%N then "+"%char
  else "/"%char.

(** Bytes are the characters of a [string]. *)
Fixpoint b64encode (bs : string) : string :=
  match bs with
  | EmptyString => ""
  | String a EmptyString =>
      let x := N_of_ascii a in
      String (b64_char (x / 4)) (String (b64_char ((x mod 4) * 16)) "==")
  | String a (String b EmptyString) =>
      let x := N_of_ascii a in
      let y := N_of_ascii b in
      String (b64_char (x / 4))
        (String (b64_char ((x mod 4) * 16 + y / 16))
           (String (b64_char ((y mod 16) * 4)) "="))
  | String a (String b (String c rest)) =>
      let x := N_of_ascii a in
      let y := N_of_ascii b in
      let z := N_of_ascii c in
      String (b64_char (x / 4))
        (String (b64_char ((x mod 4) * 16 + y / 16))
           (String (b64_char ((y mod 16) * 4 + z / 64))
              (String (b64_char (z mod 64)) (b64encode rest))))
  end.



(** ** The data of one execution *)

(** One output block of the response: [{'type': .., 'data': .., 'metadata': ..}]. *)
Record block : Type := Block {
  type : string;
  data : pyval;
  metadata : pyval
}.

(** [{'type': .., 'message': .., 'traceback': ..}] *)
Record error_info : Type := ErrorInfo {
  err_type : string;
  err_message : string;
  err_traceback : string
}.

(** The dict [result] that [execute_code] builds and returns. *)
Record result_dict : Type := ResultDict {
  stdout : string;
  stderr : string;
  error : option error_info;
  outputs : list block
}.

(** One captured display call.  [out_data] is [None] when the object has no
    attribute [data], [out_metadata] is [None] when it has no attribute
    [metadata]; both map a MIME type to a value. *)
Record rich_output : Type := RichOutput {
  out_data : option (gmap string pyval);
  out_metadata : option (gmap string pyval)
}.

(** What [capture_output()] holds after the [with] block. *)
Record captured_io : Type := Captured {
  cap_stdout : string;
  cap_stderr : string;
  cap_outputs : list rich_output
}.

(** What [shell.run_cell] returns; [result] is [PNone] when the cell has no
    trailing expression (or its value is [None]). *)
Record ExecutionResult : Type := ExecResult {
  error_in_exec : option exn;
  result : pyval
}.

(** The interpreter session and the plotting module, as the executor
    consults them.  Every operation may raise an [Exception], which the
    [except] clauses of the executor catch. *)
Class Interpreter (S : Type) : Type := {
  (** [with capture_output() as captured: shell.run_cell(code, ...)] *)
  run_cell : S -> pyval -> S * (exn + (captured_io * ExecutionResult));
  (** [shell.display_formatter.format(value)] *)
  display_format : S -> pyval -> S * (exn + (gmap string pyval * gmap string pyval));
  (** ['matplotlib.pyplot' in sys.modules] *)
  pyplot_loaded : S -> bool;
  (** [plt.get_fignums()] *)
  get_fignums : S -> exn + list Z;
  (** [fig = plt.figure(n); fig.savefig(buf, format='png', ...); buf.read()] *)
  savefig_png : S -> Z -> S * (exn + string);
  (** [plt.close('all')] *)
  close_all : S -> S * (exn + unit)
}.

Definition empty_dict : pyval := PDict [].

(** [metadata.get(mime, {})] *)
Definition metadata_get (md : gmap string pyval) (mime : string) : pyval :=
  default empty_dict (md !! mime).

Definition error_of_exec (e : exn) : error_info :=
  {| err_type := exn_class e;
     err_message := exn_message e;
     err_traceback := String.concat (String "010" "") (exn_tb e) |}.

Definition error_of_internal (e : exn) : error_info :=
  {| err_type := exn_class e;
     err_message := exn_message e;
     err_traceback := exn_format_exc e |}.

Definition set_stdout (s : string) (r : result_dict) : result_dict :=
  {| stdout := s; stderr := stderr r; error := error r; outputs := outputs r |}.
Definition set_stderr (s : string) (r : result_dict) : result_dict :=
  {| stdout := stdout r; stderr := s; error := error r; outputs := outputs r |}.
Definition set_error (e : error_info) (r : result_dict) : result_dict :=
  {| stdout := stdout r; stderr := stderr r; error := Some e; outputs := outputs r |}.
(** [result['outputs'].append(b)] *)
Definition append_output (b : block) (r : result_dict) : result_dict :=
  {| stdout := stdout r; stderr := stderr r; error := error r;
     outputs := outputs r ++ [b] |}.

Definition is_html (b : block) : bool := String.eqb (type b) "html".

(** ** The executor *)

Section Executor.
Context {S : Type} `{!Interpreter S}.

(** Statements inside the [try] block of [execute_code]: they read and
    update the session and the dict [result], and may raise.  The state
    reached when an exception is raised is kept: it is what the [except]
    clause sees. *)
Definition M (A : Type) : Type :=
  S * result_dict -> (S * result_dict) * (exn + A).

#[local] Instance M_ret : MRet M := fun A x st => (st, inr x).
#[local] Instance M_bind : MBind M := fun A B f m st =>
  match m st with
  | (st', inl e) => (st', inl e)
  | (st', inr x) => f x st'
  end.

(** A possibly failing pure computation, such as [json.dumps]. *)
Definition lift_either {A : Type} (r : exn + A) : M A := fun st => (st, r).

(** A call into the session. *)
Definition shell_op {A : Type} (op : S -> S * (exn + A)) : M A := fun st =>
  let '(s', r) := op (fst st) in ((s', snd st), r).

Definition modify (f : result_dict -> result_dict) : M unit := fun st =>
  ((fst st, f (snd st)), inr tt).

Definition get_result : M result_dict := fun st => (st, inr (snd st)).

(** [for x in l: f x] *)
Fixpoint for_each {A : Type} (f : A -> M unit) (l : list A) : M unit :=
  match l with
  | [] => mret tt
  | x :: l' => f x ;; for_each f l'
  end.

(** [result['outputs'].append({'type': ty, 'data': d, 'metadata': md})] *)
Definition emit (ty : string) (d md : pyval) : M unit :=
  modify (append_output {| type := ty; data := d; metadata := md |}).

(** *** [capture_matplotlib_figures] *)

(** The loop over [fig_nums]: the figures saved so far, and the exception
    that stopped the loop if there was one. *)
Fixpoint save_figures (s : S) (fig_nums : list Z) (figures : list string)
  : S * list string * option exn :=
  match fig_nums with
  | [] => (s, figures, None)
  | fig_num :: rest =>
      match savefig_png s fig_num with
      | (s', inl e) => (s', figures, Some e)
      | (s', inr png) => save_figures s' rest (figures ++ [b64encode png])
      end
  end.

Definition capture_matplotlib_figures (s : S) : S * list string :=
  if pyplot_loaded s then
    match get_fignums s with
    | inl _ => (s, [])
    | inr fig_nums =>
        match save_figures s fig_nums [] with
        | (s1, figures, Some _) => (s1, figures)
        | (s1, figures, None) => (fst (close_all s1), figures)
        end
    end
  else (s, []).

(** *** [execute_code] *)

(** The body of [for output in captured.outputs]. *)
Definition process_display_output (output : rich_output) : M unit :=
  match out_data output with
  | None => mret tt
  | Some data =>
      let metadata := default ∅ (out_metadata output) in
      (match data !! "image/png" with
       | Some x => emit "image" x (metadata_get metadata "image/png")
       | None => mret tt
       end) ;;
      (match data !! "image/jpeg" with
       | Some x => emit "jpeg" x (metadata_get metadata "image/jpeg")
       | None => mret tt
       end) ;;
      (match data !! "image/svg+xml" with
       | Some x => emit "svg" x (metadata_get metadata "image/svg+xml")
       | None => mret tt
       end) ;;
      (match data !! "text/html" with
       | Some x => emit "html" x (metadata_get metadata "text/html")
       | None => mret tt
       end) ;;
      (match data !! "application/json" with
       | Some x =>
           t ← lift_either (json_dumps x);
           emit "json" (PStr t) (metadata_get metadata "application/json")
       | None => mret tt
       end) ;;
      (match data !! "text/latex" with
       | Some x => emit "latex" x (metadata_get metadata "text/latex")
       | None => mret tt
       end) ;;
      (match data !! "text/markdown" with
       | Some x => emit "markdown" x (metadata_get metadata "text/markdown")
       | None => mret tt
       end) ;;
      (match data !! "application/javascript" with
       | Some x => emit "javascript" x (metadata_get metadata "application/javascript")
       | None => mret tt
       end) ;;
      (match data !! "text/plain" with
       | Some x =>
           if (size data =? 1)%nat
           then emit "text" x (metadata_get metadata "text/plain")
           else mret tt
       | None => mret tt
       end)
  end.

(** The [else] branch for the value of the last expression, after the
    call of the display formatter. *)
Definition process_formatted (formatted_dict metadata : gmap string pyval) : M unit :=
  let output_added := false in
  output_added ← (match formatted_dict !! "image/png" with
                  | Some x => emit "image" x (metadata_get metadata "image/png") ;;
                              mret true
                  | None => mret output_added
                  end);
  output_added ← (match formatted_dict !! "image/jpeg" with
                  | Some x => emit "jpeg" x (metadata_get metadata "image/jpeg") ;;
                              mret true
                  | None => mret output_added
                  end);
  output_added ← (match formatted_dict !! "image/svg+xml" with
                  | Some x => emit "svg" x (metadata_get metadata "image/svg+xml") ;;
                              mret true
                  | None => mret output_added
                  end);
  (match formatted_dict !! "text/html" with
   | Some x => emit "html" x (metadata_get metadata "text/html")
   | None => mret tt
   end) ;;
  output_added ← (match formatted_dict !! "application/json" with
                  | Some x =>
                      t ← lift_either (json_dumps x);
                      emit "json" (PStr t) (metadata_get metadata "application/json") ;;
                      mret true
                  | None => mret output_added
                  end);
  output_added ← (match formatted_dict !! "text/latex" with
                  | Some x => emit "latex" x (metadata_get metadata "text/latex") ;;
                              mret true
                  | None => mret output_added
                  end);
  output_added ← (match formatted_dict !! "text/markdown" with
                  | Some x => emit "markdown" x (metadata_get metadata "text/markdown") ;;
                              mret true
                  | None => mret output_added
                  end);
  output_added ← (match formatted_dict !! "application/javascript" with
                  | Some x =>
                      emit "javascript" x (metadata_get metadata "application/javascript") ;;
                      mret true
                  | None => mret output_added
                  end);
  match formatted_dict !! "text/plain" with
  | Some x =>
      r ← get_result;
      let has_html := existsb is_html (outputs r) in
      if negb output_added || has_html
      then emit "text" x (metadata_get metadata "text/plain")
      else mret tt
  | None => mret tt
  end.

(** [if exec_result.result is not None: ...] *)
Definition process_result (value : pyval) : M unit :=
  if is_None value then mret tt
  else if is_dict_or_list value then
    t ← lift_either (json_dumps value);
    emit "json" (PStr t) empty_dict
  else
    '(formatted_dict, metadata) ← shell_op (fun s => display_format s value);
    process_formatted formatted_dict metadata.

Definition initial_result : result_dict :=
  {| stdout := ""; stderr := ""; error := None; outputs := [] |}.

(** The [try] block. *)
Definition execute_body (code : pyval) : M unit :=
  '(captured, exec_result) ← shell_op (fun s => run_cell s code);
  modify (set_stdout (cap_stdout captured)) ;;
  modify (set_stderr (cap_stderr captured)) ;;
  (match error_in_exec exec_result with
   | Some err => modify (set_error (error_of_exec err))
   | None => mret tt
   end) ;;
  for_each process_display_output (cap_outputs captured) ;;
  matplotlib_figures ← shell_op (fun s =>
    let '(s', figs) := capture_matplotlib_figures s in (s', inr figs));
  for_each (fun fig_data => emit "image" (PStr fig_data) empty_dict) matplotlib_figures ;;
  process_result (result exec_result).

(** [execute_code(code)]: the session afterwards and the returned dict. *)
Definition execute_code (s : S) (code : pyval) : S * result_dict :=
  match execute_body code (s, initial_result) with
  | ((s', r), inl e) => (s', set_error (error_of_internal e) r)
  | ((s', r), inr _) => (s', r)
  end.

End Executor.

(** ** The request loop *)

(** [str.strip()]: the white space among the code points below 256. *)
Definition is_space (c : ascii) : bool :=
  let n := N_of_ascii c in
  ((9 <=? n) && (n <=? 13) || (28 <=? n) && (n <=? 32) || (n =? 133) || (n =? 160))%N.

Fixpoint lstrip (s : string) : string :=
  match s with
  | String c s' => if is_space c then lstrip s' else s
  | EmptyString => ""
  end.

Fixpoint rstrip (s : string) : string :=
  match s with
  | String c s' =>
      match rstrip s' with
      | EmptyString => if is_space c then "" else String c ""
      | t => String c t
      end
  | EmptyString => ""
  end.

Definition strip (s : string) : string := rstrip (lstrip s).

(** [d.get(key, default)] on a dict. *)
Fixpoint dict_get (items : list (pyval * pyval)) (key : string) (dflt : pyval) : pyval :=
  match items with
  | [] => dflt
  | (PStr k, v) :: items' => if String.eqb k key then v else dict_get items' key dflt
  | _ :: items' => dict_get items' key dflt
  end.

(** [request.get(key, default)]: only a dict has the method. *)
Definition request_get (request : pyval) (key : string) (dflt : pyval) : exn + pyval :=
  match request with
  | PDict items => inr (dict_get items key dflt)
  | _ => inl (AttributeError ("'" +:+ class_name request
                              +:+ "' object has no attribute 'get'"))
  end.

Definition block_to_py (b : block) : pyval :=
  PDict [(PStr "type", PStr (type b)); (PStr "data", data b);
         (PStr "metadata", metadata b)].

Definition error_to_py (e : option error_info) : pyval :=
  match e with
  | None => PNone
  | Some e => PDict [(PStr "type", PStr (err_type e));
                     (PStr "message", PStr (err_message e));
                     (PStr "traceback", PStr (err_traceback e))]
  end.

(** The dict [result] once [main] has added ['executionId'] and ['success']. *)
Definition response_to_py (r : result_dict) (execution_id : pyval) (success : bool) : pyval :=
  PDict [(PStr "stdout", PStr (stdout r));
         (PStr "stderr", PStr (stderr r));
         (PStr "error", error_to_py (error r));
         (PStr "outputs", PList (map block_to_py (outputs r)));
         (PStr "executionId", execution_id);
         (PStr "success", PBool success)].

(** The document of [error_response] in the [json.JSONDecodeError] clause. *)
Definition protocol_error_response (e : exn) : json :=
  JObj [("error", JObj [("type", JStr "ProtocolError");
                        ("message", JStr ("Invalid JSON: " +:+ exn_message e))]);
        ("status", JStr "error")].

(** The document of [error_response] in the last [except] clause. *)
Definition internal_error_response (e : exn) : json :=
  JObj [("error", JObj [("type", JStr "InternalError");
                        ("message", JStr ("Unexpected error: " +:+ exn_message e));
                        ("traceback", JStr (exn_format_exc e))]);
        ("status", JStr "error")].

(** What arrives on standard input: a line, or an interrupt signal while
    the loop waits for one.  The end of the list is the end of input. *)
Inductive stdin_event : Type :=
  | Line (line : string)
  | Interrupt.

Section Loop.
Context {S : Type} `{!Interpreter S}.

(** The decoder the loop calls, [json.loads]: the decoded value or the
    exception it raises, a [JSONDecodeError] for a text that is not JSON.
    The loop is stated for any decoder, so that its properties do not
    depend on the texts that [json_loads] above leaves out. *)
Variable loads : string -> exn + pyval.

(** The [try] block of the loop for a line that has been read: the
    session afterwards, and the document printed or the exception that
    left the block. *)
Definition handle_line (s : S) (line : string) : S * (exn + json) :=
  match loads (strip line) with
  | inl e => (s, inl e)
  | inr request =>
      match request_get request "code" (PStr "") with
      | inl e => (s, inl e)
      | inr code =>
          let '(s', result) := execute_code s code in
          match request_get request "executionId" PNone with
          | inl e => (s', inl e)
          | inr execution_id =>
              let success := bool_decide (error result = None) in
              (s', to_json (response_to_py result execution_id success))
          end
      end
  end.

(** One iteration of the loop for a line that has been read: what the
    [try] block prints, or what the [except] clause that catches the
    exception prints; [None] when the loop is left instead
    ([KeyboardInterrupt]). *)
Definition iteration (s : S) (line : string) : S * option json :=
  match handle_line s line with
  | (s', inr response) => (s', Some response)
  | (s', inl e) =>
      if String.eqb (exn_class e) "JSONDecodeError"
      then (s', Some (protocol_error_response e))
      else if String.eqb (exn_class e) "KeyboardInterrupt" then (s', None)
      else (s', Some (internal_error_response e))
  end.

(** [main()]: the session at the end and the documents printed, one per
    line, in order. *)
Fixpoint main (s : S) (stdin : list stdin_event) : S * list json :=
  match stdin with
  | [] => (s, [])
  | Interrupt :: _ => (s, [])
  | Line line :: rest =>
      if String.eqb line "" then (s, [])
      else
        match iteration s line with
        | (s', Some response) =>
            let '(s'', out) := main s' rest in (s'', response :: out)
        | (s', None) => (s', [])
        end
  end.

End Loop.

(** Lookup of a member of a JSON object. *)
Fixpoint members_get (ms : list (string * json)) (key : string) : option json :=
  match ms with
  | [] => None
  | (k, v) :: ms' => if String.eqb k key then Some v else members_get ms' key
  end.

Definition json_get (j : json) (key : string) : option json :=
  match j with
  | JObj ms => members_get ms key
  | _ => None
  end.

(** ** The blocks of a payload, as lists

    What the statements above append, written as pure functions; the
    section on the executor's properties proves that the executor appends
    exactly these. *)

Definition add_blocks (r : result_dict) (bs : list block) : result_dict :=
  {| stdout := stdout r; stderr := stderr r; error := error r;
     outputs := outputs r ++ bs |}.

(** The block of one MIME type, if the mapping has it. *)
Definition block_for (d md : gmap string pyval) (mime ty : string) : list block :=
  match d !! mime with
  | Some x => [{| type := ty; data := x; metadata := metadata_get md mime |}]
  | None => []
  end.

(** The [json] block: its data goes through [json.dumps], which may raise. *)
Definition json_block_for (d md : gmap string pyval) : exn + list block :=
  match d !! "application/json" with
  | Some x =>
      match json_dumps x with
      | inl e => inl e
      | inr t => inr [{| type := "json"; data := PStr t;
                         metadata := metadata_get md "application/json" |}]
      end
  | None => inr []
  end.

Definition before_json (d md : gmap string pyval) : list block :=
  block_for d md "image/png" "image" ++ block_for d md "image/jpeg" "jpeg"
  ++ block_for d md "image/svg+xml" "svg" ++ block_for d md "text/html" "html".

Definition after_json (d md : gmap string pyval) : list block :=
  block_for d md "text/latex" "latex" ++ block_for d md "text/markdown" "markdown"
  ++ block_for d md "application/javascript" "javascript".

(** The blocks appended for one captured display call, and the exception
    that interrupted them if [json.dumps] raised. *)
Definition display_blocks (output : rich_output) : list block * option exn :=
  match out_data output with
  | None => ([], None)
  | Some d =>
      let md := default ∅ (out_metadata output) in
      match json_block_for d md with
      | inl e => (before_json d md, Some e)
      | inr jb =>
          (before_json d md ++ jb ++ after_json d md
           ++ (if (size d =? 1)%nat then block_for d md "text/plain" "text" else []),
           None)
      end
  end.

Fixpoint all_display_blocks (outs : list rich_output) : list block * option exn :=
  match outs with
  | [] => ([], None)
  | o :: outs' =>
      match display_blocks o with
      | (bs, Some e) => (bs, Some e)
      | (bs, None) =>
          let '(bs', e) := all_display_blocks outs' in (bs ++ bs', e)
      end
  end.

Definition has_key (d : gmap string pyval) (mime : string) : bool :=
  bool_decide (is_Some (d !! mime)).

(** The value of the flag [output_added] at the end of the rendering of a
    value: some kind other than html and text is present. *)
Definition output_added_for (fd : gmap string pyval) : bool :=
  has_key fd "image/png" || has_key fd "image/jpeg" || has_key fd "image/svg+xml"
  || has_key fd "application/json" || has_key fd "text/latex"
  || has_key fd "text/markdown" || has_key fd "application/javascript".

(** The blocks appended for a rendered value; [html_before] tells whether
    the outputs built before it already hold an html block. *)
Definition formatted_blocks (html_before : bool) (fd md : gmap string pyval)
  : list block * option exn :=
  match json_block_for fd md with
  | inl e => (before_json fd md, Some e)
  | inr jb =>
      (before_json fd md ++ jb ++ after_json fd md
       ++ (if negb (output_added_for fd) || (html_before || has_key fd "text/html")
           then block_for fd md "text/plain" "text" else []),
       None)
  end.

Definition figure_block (fig_data : string) : block :=
  {| type := "image"; data := PStr fig_data; metadata := empty_dict |}.

Definition is_text (b : block) : bool := String.eqb (type b) "text".
Definition is_image (b : block) : bool := String.eqb (type b) "image".
Definition is_json (b : block) : bool := String.eqb (type b) "json".

(** [b1] occurs before [b2] in [l]. *)
Definition precedes (b1 b2 : block) (l : list block) : Prop :=
  ∃ i j, (i < j)%nat ∧ l !! i = Some b1 ∧ l !! j = Some b2.

(** ** A replaying interpreter

    A session whose cells have been run beforehand: it holds the outcome of
    each of the next cells, the contents of the figure registry and the
    renderings of the display formatter.  It instantiates the executor on
    concrete outcomes. *)

Record replay : Type := Replay {
  pending : list (exn + (captured_io * ExecutionResult));
  pyplot : bool;
  figures : list (Z * (exn + string));
  renderings : pyval -> exn + (gmap string pyval * gmap string pyval)
}.

Definition RuntimeError (msg : string) : exn :=
  {| exn_class := "RuntimeError"; exn_message := msg; exn_tb := [];
     exn_format_exc :=
       "Traceback (most recent call last):" +:+ String "010" "RuntimeError: " +:+ msg
         +:+ String "010" "" |}.

Fixpoint find_figure (figs : list (Z * (exn + string))) (n : Z) : exn + string :=
  match figs with
  | [] => inl (RuntimeError "no such figure")
  | (k, r) :: figs' => if (k =? n)%Z then r else find_figure figs' n
  end.

#[global] Instance replay_interpreter : Interpreter replay := {
  run_cell s _ :=
    match pending s with
    | [] => (s, inl (RuntimeError "no cell to replay"))
    | o :: rest =>
        ({| pending := rest; pyplot := pyplot s; figures := figures s;
            renderings := renderings s |}, o)
    end;
  display_format s v := (s, renderings s v);
  pyplot_loaded s := pyplot s;
  get_fignums s := inr (map fst (figures s));
  savefig_png s n := (s, find_figure (figures s) n);
  close_all s :=
    ({| pending := pending s; pyplot := pyplot s; figures := [];
        renderings := renderings s |}, inr tt)
}.

(** The dict [result] right after the [with] block and the [if] on
    [error_in_exec], before any output is processed. *)
Definition captured_result (captured : captured_io) (exec_result : ExecutionResult)
  : result_dict :=
  {| stdout := cap_stdout captured;
     stderr := cap_stderr captured;
     error := error_of_exec <$> error_in_exec exec_result;
     outputs := [] |}.

(** The blocks that a statement appends to the outputs of [r]. *)
Definition appended_by {S : Type} (m : M (S:=S) unit) (s : S) (r : result_dict)
  : list block :=
  drop (length (outputs r)) (outputs (m (s, r)).1.2).

(** The blocks appended for the value of the last expression, as a list;
    [html_before] as in [formatted_blocks]. *)
Definition value_blocks {S : Type} `{!Interpreter S} (s : S) (html_before : bool)
    (value : pyval) : list block :=
  if is_None value then []
  else if is_dict_or_list value then
    match json_dumps value with
    | inl _ => []
    | inr t => [{| type := "json"; data := PStr t; metadata := empty_dict |}]
    end
  else
    match display_format s value with
    | (_, inl _) => []
    | (_, inr (fd, md)) => (formatted_blocks html_before fd md).1
    end.

Definition is_html_or_text (b : block) : bool := is_html b || is_text b.

(** The MIME types the executor knows. *)
Definition display_kinds : list string :=
  ["image/png"; "image/jpeg"; "image/svg+xml"; "text/html"; "application/json";
   "text/latex"; "text/markdown"; "application/javascript"; "text/plain"].

(** ** Sample outcomes *)

Definition newline : string := String "010" "".

Definition ZeroDivisionError : exn :=
  {| exn_class := "ZeroDivisionError";
     exn_message := "division by zero";
     exn_tb := ["  File <ipython-input>, line 1, in <module>" +:+ newline];
     exn_format_exc := "" |}.

(** A display formatter: an integer has its decimal text; an [Image] has a
    PNG and a text; a [DataFrame] has an HTML table and a text; a [Widget]
    displays itself and has no rendering at all; any other object has a
    text. *)
Definition sample_renderings (v : pyval)
  : exn + (gmap string pyval * gmap string pyval) :=
  match v with
  | PInt n => inr ({["text/plain" := PStr (repr_int n)]}, ∅)
  | POpaque ty _ =>
      if String.eqb ty "Image" then
        inr ({["image/png" := PStr "iVBORw0KGgo="; "text/plain" := PStr "<Image object>"]},
             {["image/png" := PDict [(PStr "width", PInt 2)]]})
      else if String.eqb ty "DataFrame" then
        inr ({["text/html" := PStr "<table></table>"; "text/plain" := PStr "Empty DataFrame"]}, ∅)
      else if String.eqb ty "Widget" then inr (∅, ∅)
      else inr ({["text/plain" := PStr "<object>"]}, ∅)
  | _ => inr ({["text/plain" := PStr "<object>"]}, ∅)
  end.

(** A session about to run one cell with the given outcome. *)
Definition one_cell (captured : captured_io) (exec_result : ExecutionResult)
    (loaded : bool) (figs : list (Z * (exn + string))) : replay :=
  {| pending := [inr (captured, exec_result)];
     pyplot := loaded;
     figures := figs;
     renderings := sample_renderings |}.

(** [plt.plot([1, 2])] followed by the expression [42]: one figure is
    pending and the value is [42]. *)
Definition session_figure_and_value : replay :=
  one_cell {| cap_stdout := ""; cap_stderr := ""; cap_outputs := [] |}
           {| error_in_exec := None; result := PInt 42 |}
           true [(1, inr "PNG")].



(** [print('a')], a display of the text [hi], then a raw display of a set
    as [application/json]; the code itself raises nothing. *)
Definition session_internal_error : replay :=
  one_cell {| cap_stdout := "a" +:+ newline; cap_stderr := "";
              cap_outputs :=
                [{| out_data := Some {["text/plain" := PStr "hi"]};
                    out_metadata := Some ∅ |};
                 {| out_data := Some {["application/json" := POpaque "set" 0]};
                    out_metadata := Some ∅ |}] |}
           {| error_in_exec := None; result := PNone |}
           false [].

(** [print('a')] then [1/0]. *)
Definition session_print_then_error : replay :=
  one_cell {| cap_stdout := "a" +:+ newline; cap_stderr := ""; cap_outputs := [] |}
           {| error_in_exec := Some ZeroDivisionError; result := PNone |}
           false [].

(** A display of an HTML object, then an [Image] as the last expression. *)
Definition session_html_display_then_image : replay :=
  one_cell {| cap_stdout := ""; cap_stderr := "";
              cap_outputs :=
                [{| out_data := Some {["text/html" := PStr "<b>x</b>";
                                       "text/plain" := PStr "<HTML object>"]};
                    out_metadata := Some ∅ |}] |}
           {| error_in_exec := None; result := POpaque "Image" 1 |}
           false [].

(** A value of the given class as the last expression, nothing else. *)
Definition session_value (v : pyval) : replay :=
  one_cell {| cap_stdout := ""; cap_stderr := ""; cap_outputs := [] |}
           {| error_in_exec := None; result := v |}
           false [].

(** The two loops inside [to_json], by name. *)
Fixpoint to_json_items (l : list pyval) : exn + list json :=
  match l with
  | [] => inr []
  | x :: l' =>
      match to_json x with
      | inl e => inl e
      | inr j => match to_json_items l' with
                 | inl e => inl e
                 | inr js => inr (j :: js)
                 end
      end
  end.

Fixpoint to_json_members (kvs : list (pyval * pyval)) : exn + list (string * json) :=
  match kvs with
  | [] => inr []
  | (k, x) :: kvs' =>
      match key_to_json k with
      | inl e => inl e
      | inr s =>
          match to_json x with
          | inl e => inl e
          | inr j => match to_json_members kvs' with
                     | inl e => inl e
                     | inr ms => inr ((s, j) :: ms)
                     end
          end
      end
  end.

(** The document of the field [error] of a response. *)
Definition error_to_json (e : option error_info) : json :=
  match e with
  | None => JNull
  | Some e => JObj [("type", JStr (err_type e)); ("message", JStr (err_message e));
                    ("traceback", JStr (err_traceback e))]
  end.

(** Two requests, as lines of the input. *)
Definition line_not_json : string := "not json" +:+ newline.

Definition line_request : string :=
  "{" +:+ quote +:+ "code" +:+ quote +:+ ": " +:+ quote +:+ "print('a'); 1/0" +:+ quote
  +:+ ", " +:+ quote +:+ "executionId" +:+ quote +:+ ": 7}" +:+ newline.

(** A display call with a text only, and one with a text and a kind the
    executor does not know. *)
Definition payload_text_only : rich_output :=
  {| out_data := Some {["text/plain" := PStr "hi"]}; out_metadata := Some ∅ |}.

Definition payload_text_and_unknown : rich_output :=
  {| out_data := Some {["text/plain" := PStr "hi";
                        "application/x-custom" := PStr "payload"]};
     out_metadata := Some ∅ |}.

(** The two loops inside [json_text], by name. *)
Fixpoint items_text (l : list json) : string :=
  match l with
  | [] => ""
  | [x] => json_text x
  | x :: l' => json_text x +:+ ", " +:+ items_text l'
  end.

Fixpoint members_text (ms : list (string * json)) : string :=
  match ms with
  | [] => ""
  | [(k, x)] => json_string k +:+ ": " +:+ json_text x
  | (k, x) :: ms' => json_string k +:+ ": " +:+ json_text x +:+ ", " +:+ members_text ms'
  end.

(** What may follow a number in a text: anything but a digit. *)
Definition follow_ok (rest : string) : Prop :=
  match rest with
  | EmptyString => True
  | String c _ => digit_of c = None
  end.

(** The values that [json.dumps] and [json.loads] carry unchanged: [None],
    booleans, integers, strings, lists of such values, and dicts of such
    values whose keys are strings, all different. *)
Fixpoint json_native (v : pyval) : Prop :=
  match v with
  | PNone | PBool _ | PInt _ | PStr _ => True
  | PList l =>
      (fix go (l : list pyval) : Prop :=
         match l with
         | [] => True
         | x :: l' => json_native x ∧ go l'
         end) l
  | PDict kvs =>
      (fix go (kvs : list (pyval * pyval)) (seen : list string) : Prop :=
         match kvs with
         | [] => True
         | (PStr k, x) :: kvs' => (k ∉ seen) ∧ json_native x ∧ go kvs' (k :: seen)
         | _ :: _ => False
         end) kvs []
  | PTuple _ | POpaque _ _ => False
  end.

(** The loop inside [from_json], by name. *)
Fixpoint dict_of_members (ms : list (string * json)) (acc : list (pyval * pyval))
  : list (pyval * pyval) :=
  match ms with
  | [] => acc
  | (k, x) :: ms' => dict_of_members ms' (dict_set acc k (from_json x))
  end.

(** The loop inside [json_native] for the items of a dict. *)
Fixpoint native_members (kvs : list (pyval * pyval)) (seen : list string) : Prop :=
  match kvs with
  | [] => True
  | (PStr k, x) :: kvs' => (k ∉ seen) ∧ json_native x ∧ native_members kvs' (k :: seen)
  | _ :: _ => False
  end.

(** A dict with an integer key, and a list that holds a set. *)
Definition dict_int_key : pyval := PDict [(PInt 1, PStr "a")].
Definition list_with_set : pyval := PList [POpaque "set" 0].
Definition dict_a1 : pyval := PDict [(PStr "a", PInt 1)].

(** ** Notions used by the proofs about the decoder *)

(** The characters a number starts with: a digit or the sign. *)
Definition number_start (c : ascii) : bool :=
  match digit_of c with Some _ => true | None => (N_of_ascii c =? 45)%N end.

(** The characters the text of a value may start with are no white space
    and close nothing. *)
Definition value_start (c : ascii) : bool :=
  negb (is_json_ws c) && negb (Ascii.eqb "]" c) && negb (Ascii.eqb "}" c).

(** The property proved of every document: enough fuel decodes its text. *)
Definition decodes (j : json) : Prop :=
  ∀ fuel rest,
    (String.length (json_text j) < fuel)%nat →
    follow_ok rest →
    scan_value fuel (json_text j +:+ rest) = Some (j, rest).

(** The property proved of every value: if it is native, its document
    converts back to it. *)
Definition round_trips (v : pyval) : Prop :=
  json_native v → ∃ j, to_json v = inr j ∧ from_json j = v.

(** ** Notions used by the further properties *)

(** The tags of the output blocks, in the order in which the executor
    appends the blocks of one payload. *)
Definition precedence : list string :=
  ["image"; "jpeg"; "svg"; "html"; "json"; "latex"; "markdown"; "javascript"; "text"].

(** The MIME types that get a block of their own whenever they are
    present, with the tag of the block. *)
Definition kind_table : list (string * string) :=
  [("image/png", "image"); ("image/jpeg", "jpeg"); ("image/svg+xml", "svg");
   ("text/html", "html"); ("application/json", "json"); ("text/latex", "latex");
   ("text/markdown", "markdown"); ("application/javascript", "javascript")].

(** A line that was read: not the interrupt, and not the empty string
    that [readline] gives at the end of the input. *)
Definition is_request_line (ev : stdin_event) : Prop :=
  match ev with
  | Line line => line ≠ ""
  | Interrupt => False
  end.

(** [json.dumps] accepts the value. *)
Definition serializable (v : pyval) : Prop := ∃ j, to_json v = inr j.

(** The names of the members of an object. *)
Definition json_keys (j : json) : list string :=
  match j with
  | JObj ms => map fst ms
  | _ => []
  end.

(** The keys of a response that carries a result, and of one that reports
    an error of the loop. *)
Definition result_keys : list string :=
  ["stdout"; "stderr"; "error"; "outputs"; "executionId"; "success"].

Definition error_keys : list string := ["error"; "status"].

(** A string of white space only ([str.strip] leaves nothing of it). *)
Fixpoint all_space (s : string) : bool :=
  match s with
  | EmptyString => true
  | String c s' => is_space c && all_space s'
  end.

(** No object of the document has two members of the same name. *)
Fixpoint distinct_names (j : json) : Prop :=
  match j with
  | JNull | JBool _ | JNum _ | JStr _ => True
  | JArr l =>
      (fix go (l : list json) : Prop :=
         match l with
         | [] => True
         | x :: l' => distinct_names x ∧ go l'
         end) l
  | JObj ms =>
      (fix go (ms : list (string * json)) (seen : list string) : Prop :=
         match ms with
         | [] => True
         | (k, x) :: ms' => (k ∉ seen) ∧ distinct_names x ∧ go ms' (k :: seen)
         end) ms []
  end.

(** The loop inside [distinct_names] for the members of an object. *)
Fixpoint distinct_members (ms : list (string * json)) (seen : list string) : Prop :=
  match ms with
  | [] => True
  | (k, x) :: ms' => (k ∉ seen) ∧ distinct_names x ∧ distinct_members ms' (k :: seen)
  end.

(** The decoder never lets [KeyboardInterrupt] out. *)
Definition no_interrupt_from_decoder (loads : string → exn + pyval) : Prop :=
  ∀ text e, loads text = inl e → exn_class e ≠ "KeyboardInterrupt".

(** The readiness signal printed when the module is loaded. *)
Definition ready_signal : json :=
  JObj [("status", JStr "ready"); ("version", JStr "2.0.0")].

(** How the module starts: the import of IPython fails with a message
    (and [sys.path] is what it is), or creating the shell raises, which
    nothing catches, or the shell is created. *)
Inductive startup (S : Type) : Type :=
  | ImportFailed (msg : string) (sys_path : list string)
  | ShellFailed
  | Started (s : S).
Arguments ImportFailed {S} msg sys_path.
Arguments ShellFailed {S}.
Arguments Started {S} s.

(** The script as a whole: the documents printed on standard output and
    the exit status.  When the import fails, the error is printed and the
    process exits with status 1; when creating the shell raises, the
    traceback goes to standard error and the status is 1; otherwise the
    readiness signal is printed and [main] runs until the input ends.
    [main] raises nothing here (a failing write to standard output is not
    modelled), so the [except] clause around its call is not reached. *)
Definition program {S : Type} `{!Interpreter S} (loads : string → exn + pyval)
    (start : startup S) (stdin : list stdin_event) : list json * Z :=
  match start with
  | ImportFailed msg sys_path =>
      ([JObj [("error", JStr ("IPython import failed: " +:+ msg));
              ("python_path", JArr (map JStr sys_path))]], 1)
  | ShellFailed => ([], 1)
  | Started s => (ready_signal :: (main loads s stdin).2, 0)
  end.

(** The document is the readiness signal. *)
Definition is_ready (j : json) : bool :=
  match json_get j "status" with
  | Some (JStr st) => String.eqb st "ready"
  | _ => false
  end.

(** The items of a dict that was decoded from JSON: the keys are strings
    and [json.dumps] accepts the values. *)
Definition str_keyed (kvs : list (pyval * pyval)) : Prop :=
  Forall (λ kv, (∃ k, kv.1 = PStr k) ∧ serializable kv.2) kvs.

(** The property proved of every document: its value can be encoded, and
    gives the document back when no object repeats a name. *)
Definition encodes_back (j : json) : Prop :=
  serializable (from_json j) ∧ (distinct_names j → to_json (from_json j) = inr j).

(** More lines of the input: a blank line and a request that is a list. *)
Definition line_blank : string := "  " +:+ newline.
Definition line_list : string := "[1, 2]" +:+ newline.

(** A display call with an HTML text. *)
Definition payload_html : rich_output :=
  {| out_data := Some {["text/html" := PStr "<b>x</b>";
                        "text/plain" := PStr "<HTML object>"]};
     out_metadata := Some ∅ |}.

(** The character occurs in the string. *)
Fixpoint occurs (c : ascii) (s : string) : bool :=
  match s with
  | EmptyString => false
  | String c' s' => Ascii.eqb c c' || occurs c s'
  end.

(** The last character of the string, if any, is no white space for
    [str.strip]. *)
Fixpoint ends_visible (s : string) : bool :=
  match s with
  | EmptyString => false
  | String c EmptyString => negb (is_space c)
  | String _ s' => ends_visible s'
  end.

(** The line feed. *)
Definition LF : ascii := "010"%char.

(** * Properties *)
(** ** Sanity checks of the model *)

Example b64encode_Man : b64encode "Man" = "TWFu".
Proof. reflexivity. Qed.

Example b64encode_Ma : b64encode "Ma" = "TWE=".
Proof. reflexivity. Qed.

Example strip_line : strip ("  {} " +:+ newline) = "{}".
Proof. reflexivity. Qed.

Example json_dumps_nested :
  json_dumps (PDict [(PStr "a", PInt 1); (PInt 3, PList [PNone; PBool true; PInt (-12)])])
  = inr ("{" +:+ quote +:+ "a" +:+ quote +:+ ": 1, " +:+ quote +:+ "3" +:+ quote
         +:+ ": [null, true, -12]}").
Proof. reflexivity. Qed.

Example json_loads_not_json : json_decode "not json" = None.
Proof. reflexivity. Qed.

Example json_loads_keeps_last_member :
  json_loads ("{" +:+ quote +:+ "k" +:+ quote +:+ ": 1, " +:+ quote +:+ "k" +:+ quote
              +:+ " : [ ]}")
  = inr (PDict [(PStr "k", PList [])]).
Proof. reflexivity. Qed.

(** The scenario of the malformed line followed by a request whose code
    prints and then divides by zero. *)
Example main_two_lines :
  (main json_loads session_print_then_error [Line line_not_json; Line line_request]).2
  = [protocol_error_response
       (JSONDecodeError "Expecting value: line 1 column 1 (char 0)");
     JObj [("stdout", JStr ("a" +:+ newline)); ("stderr", JStr "");
           ("error", JObj [("type", JStr "ZeroDivisionError");
                           ("message", JStr "division by zero");
                           ("traceback",
                            JStr ("  File <ipython-input>, line 1, in <module>"
                                  +:+ newline))]);
           ("outputs", JArr []); ("executionId", JNum 7);
           ("success", JBool false)]].
Proof. reflexivity. Qed.


(** ** Python values and [json.dumps] *)

Section PyvalInduction.
Variable P : pyval → Prop.
Hypothesis HNone : P PNone.
Hypothesis HBool : ∀ b, P (PBool b).
Hypothesis HInt : ∀ n, P (PInt n).
Hypothesis HStr : ∀ s, P (PStr s).
Hypothesis HList : ∀ l, Forall P l → P (PList l).
Hypothesis HTuple : ∀ l, Forall P l → P (PTuple l).
Hypothesis HDict : ∀ kvs, Forall (λ kv, P kv.1 ∧ P kv.2) kvs → P (PDict kvs).
Hypothesis HOpaque : ∀ ty n, P (POpaque ty n).

Fixpoint pyval_nested_ind (v : pyval) : P v :=
  match v with
  | PNone => HNone
  | PBool b => HBool b
  | PInt n => HInt n
  | PStr s => HStr s
  | PList l =>
      HList l ((fix go l : Forall P l :=
                  match l with
                  | [] => List.Forall_nil P
                  | x :: l' => @List.Forall_cons _ P x l' (pyval_nested_ind x) (go l')
                  end) l)
  | PTuple l =>
      HTuple l ((fix go l : Forall P l :=
                   match l with
                   | [] => List.Forall_nil P
                   | x :: l' => @List.Forall_cons _ P x l' (pyval_nested_ind x) (go l')
                   end) l)
  | PDict kvs =>
      HDict kvs ((fix go kvs : Forall (λ kv, P kv.1 ∧ P kv.2) kvs :=
                    match kvs with
                    | [] => List.Forall_nil _
                    | (k, x) :: kvs' =>
                        @List.Forall_cons _ (λ kv, P kv.1 ∧ P kv.2) (k, x) kvs'
                          (conj (pyval_nested_ind k) (pyval_nested_ind x)) (go kvs')
                    end) kvs)
  | POpaque ty n => HOpaque ty n
  end.
End PyvalInduction.

Lemma to_json_PList l :
  to_json (PList l)
  = match to_json_items l with inl e => inl e | inr js => inr (JArr js) end.
Proof. reflexivity. Qed.

Lemma to_json_PTuple l :
  to_json (PTuple l)
  = match to_json_items l with inl e => inl e | inr js => inr (JArr js) end.
Proof. reflexivity. Qed.

Lemma to_json_PDict kvs :
  to_json (PDict kvs)
  = match to_json_members kvs with inl e => inl e | inr ms => inr (JObj ms) end.
Proof. reflexivity. Qed.

Lemma key_to_json_class k e : key_to_json k = inl e → exn_class e = "TypeError".
Proof. destruct k as [|[]| | | | | |]; simpl; intros [= <-]; done. Qed.

(** [json.dumps] raises nothing but [TypeError]. *)
Lemma to_json_class v : ∀ e, to_json v = inl e → exn_class e = "TypeError".
Proof.
  induction v as [|b|n|s|l IH|l IH|kvs IH|ty n] using pyval_nested_ind;
    intros e; try discriminate.
  - rewrite to_json_PList.
    assert (∀ e, to_json_items l = inl e → exn_class e = "TypeError") as Hl.
    { induction IH as [|x l Hx _ IHl]; simpl; [discriminate|].
      intros e'. destruct (to_json x) eqn:Hjx; [intros [= <-]; eauto|].
      destruct (to_json_items l); [intros [= <-]; eauto|discriminate]. }
    destruct (to_json_items l); [intros [= <-]; eauto|discriminate].
  - rewrite to_json_PTuple.
    assert (∀ e, to_json_items l = inl e → exn_class e = "TypeError") as Hl.
    { induction IH as [|x l Hx _ IHl]; simpl; [discriminate|].
      intros e'. destruct (to_json x) eqn:Hjx; [intros [= <-]; eauto|].
      destruct (to_json_items l); [intros [= <-]; eauto|discriminate]. }
    destruct (to_json_items l); [intros [= <-]; eauto|discriminate].
  - rewrite to_json_PDict.
    assert (∀ e, to_json_members kvs = inl e → exn_class e = "TypeError") as Hl.
    { induction IH as [|[k x] kvs [_ Hx] _ IHl]; simpl; [discriminate|].
      intros e'. destruct (key_to_json k) eqn:Hk;
        [intros [= <-]; eauto using key_to_json_class|].
      simpl in Hx. destruct (to_json x) eqn:Hjx; [intros [= <-]; eauto|].
      destruct (to_json_members kvs); [intros [= <-]; eauto|discriminate]. }
    destruct (to_json_members kvs); [intros [= <-]; eauto|discriminate].
  - simpl. by intros [= <-].
Qed.

Lemma add_blocks_nil r : add_blocks r [] = r.
Proof. destruct r; unfold add_blocks; simpl. by rewrite app_nil_r. Qed.

Lemma add_blocks_app r bs1 bs2 :
  add_blocks (add_blocks r bs1) bs2 = add_blocks r (bs1 ++ bs2).
Proof. unfold add_blocks; simpl. by rewrite app_assoc. Qed.

Lemma outputs_add_blocks r bs : outputs (add_blocks r bs) = outputs r ++ bs.
Proof. reflexivity. Qed.

Section ExecutorFacts.
Context {S : Type} `{!Interpreter S}.

Implicit Types (s : S) (r : result_dict).

#[local] Existing Instances M_ret M_bind.

(** *** Running the statements *)

Lemma run_bind_ok {A B} (m : M (S:=S) A) (f : A → M B) st st' x :
  m st = (st', inr x) → M_bind _ _ f m st = f x st'.
Proof. intros Hm. unfold M_bind. by rewrite Hm. Qed.

Lemma run_bind_err {A B} (m : M (S:=S) A) (f : A → M B) st st' e :
  m st = (st', inl e) → M_bind _ _ f m st = (st', inl e).
Proof. intros Hm. unfold M_bind. by rewrite Hm. Qed.

Lemma emit_run ty d md s r :
  emit ty d md (s, r) = ((s, add_blocks r [Block ty d md]), inr tt).
Proof. reflexivity. Qed.

(** One [if mime in data: append] statement of the display loop. *)
Lemma present_run (d md : gmap string pyval) mime ty s r :
  match d !! mime with
  | Some x => emit ty x (metadata_get md mime)
  | None => mret tt
  end (s, r) = ((s, add_blocks r (block_for d md mime ty)), inr tt).
Proof.
  unfold block_for. destruct (d !! mime); [apply emit_run|].
  by rewrite add_blocks_nil.
Qed.

(** The same statement when it also sets [output_added]. *)
Lemma present_flag_run (d md : gmap string pyval) mime ty (b : bool) s r :
  match d !! mime with
  | Some x => emit ty x (metadata_get md mime) ;; mret true
  | None => mret b
  end (s, r)
  = ((s, add_blocks r (block_for d md mime ty)), inr (b || has_key d mime)).
Proof.
  unfold block_for, has_key. destruct (d !! mime) as [x|] eqn:Hd.
  - rewrite bool_decide_eq_true_2 by eauto. by rewrite orb_true_r.
  - rewrite bool_decide_eq_false_2 by (by intros [? ?]).
    by rewrite add_blocks_nil, orb_false_r.
Qed.

Lemma json_run (d md : gmap string pyval) s r :
  match d !! "application/json" with
  | Some x =>
      t ← lift_either (json_dumps x);
      emit "json" (PStr t) (metadata_get md "application/json")
  | None => mret tt
  end (s, r)
  = match json_block_for d md with
    | inl e => ((s, r), inl e)
    | inr jb => ((s, add_blocks r jb), inr tt)
    end.
Proof.
  unfold json_block_for. destruct (d !! "application/json") as [x|].
  - unfold mbind, M_bind, lift_either. by destruct (json_dumps x).
  - by rewrite add_blocks_nil.
Qed.

Lemma json_flag_run (d md : gmap string pyval) (b : bool) s r :
  match d !! "application/json" with
  | Some x =>
      t ← lift_either (json_dumps x);
      emit "json" (PStr t) (metadata_get md "application/json") ;;
      mret true
  | None => mret b
  end (s, r)
  = match json_block_for d md with
    | inl e => ((s, r), inl e)
    | inr jb => ((s, add_blocks r jb), inr (b || has_key d "application/json"))
    end.
Proof.
  unfold json_block_for, has_key.
  destruct (d !! "application/json") as [x|] eqn:Hd.
  - rewrite bool_decide_eq_true_2 by eauto.
    unfold mbind, M_bind, lift_either. destruct (json_dumps x); [done|].
    by rewrite orb_true_r.
  - rewrite bool_decide_eq_false_2 by (by intros [? ?]).
    by rewrite add_blocks_nil, orb_false_r.
Qed.

Lemma text_single_run (d md : gmap string pyval) s r :
  match d !! "text/plain" with
  | Some x =>
      if (size d =? 1)%nat
      then emit "text" x (metadata_get md "text/plain")
      else mret tt
  | None => mret tt
  end (s, r)
  = ((s, add_blocks r (if (size d =? 1)%nat
                       then block_for d md "text/plain" "text" else [])),
     inr tt).
Proof.
  unfold block_for. destruct (d !! "text/plain"), (size d =? 1)%nat;
    rewrite ?add_blocks_nil; done.
Qed.

(** *** The display loop *)

Ltac step_with lem :=
  erewrite run_bind_ok by (apply lem); cbv beta; rewrite ?add_blocks_app.

Lemma process_display_output_run output s r :
  process_display_output output (s, r)
  = ((s, add_blocks r (display_blocks output).1),
     match (display_blocks output).2 with Some e => inl e | None => inr tt end).
Proof.
  unfold process_display_output, display_blocks.
  destruct (out_data output) as [d|]; [|by rewrite add_blocks_nil].
  set (md := default ∅ (out_metadata output)).
  unfold mbind.
  do 4 step_with present_run.
  match goal with
  | |- M_bind _ _ _ _ (_, ?r0) = _ => pose proof (json_run d md s r0) as Hj
  end.
  unfold mbind in Hj.
  destruct (json_block_for d md) as [e|jb].
  - erewrite run_bind_err by exact Hj. by rewrite <- !app_assoc.
  - erewrite run_bind_ok by exact Hj. cbv beta. rewrite ?add_blocks_app.
    do 3 step_with present_run.
    rewrite text_single_run, add_blocks_app. simpl.
    unfold before_json, after_json. by rewrite <- !app_assoc.
Qed.

Lemma for_each_display_run outs s r :
  for_each process_display_output outs (s, r)
  = ((s, add_blocks r (all_display_blocks outs).1),
     match (all_display_blocks outs).2 with Some e => inl e | None => inr tt end).
Proof.
  revert r. induction outs as [|o outs IH]; intros r; simpl.
  - by rewrite add_blocks_nil.
  - unfold mbind.
    pose proof (process_display_output_run o s r) as Ho.
    destruct (display_blocks o) as [bs [e|]]; simpl in Ho.
    + by erewrite run_bind_err by exact Ho.
    + erewrite run_bind_ok by exact Ho. rewrite IH.
      destruct (all_display_blocks outs) as [bs' e']. simpl.
      by rewrite add_blocks_app.
Qed.

Lemma for_each_figures_run (figs : list string) s r :
  for_each (fun fig_data => emit "image" (PStr fig_data) empty_dict) figs (s, r)
  = ((s, add_blocks r (map figure_block figs)), inr tt).
Proof.
  revert r. induction figs as [|f figs IH]; intros r; simpl.
  - by rewrite add_blocks_nil.
  - unfold mbind. erewrite run_bind_ok by apply emit_run.
    by rewrite IH, add_blocks_app.
Qed.

(** *** The value of the last expression *)

Lemma existsb_is_html_block_for (d md : gmap string pyval) mime ty :
  existsb is_html (block_for d md mime ty)
  = String.eqb ty "html" && has_key d mime.
Proof.
  unfold block_for, has_key. destruct (d !! mime) as [x|] eqn:Hd.
  - rewrite bool_decide_eq_true_2 by eauto. unfold is_html; simpl.
    by rewrite orb_false_r, andb_true_r.
  - rewrite bool_decide_eq_false_2 by (by intros [? ?]). by rewrite andb_false_r.
Qed.

Lemma existsb_is_html_json (d md : gmap string pyval) jb :
  json_block_for d md = inr jb → existsb is_html jb = false.
Proof.
  unfold json_block_for. destruct (d !! "application/json") as [x|].
  - destruct (json_dumps x); [done|]. by intros [= <-].
  - by intros [= <-].
Qed.

Lemma process_formatted_run (fd md : gmap string pyval) s r :
  process_formatted fd md (s, r)
  = ((s, add_blocks r (formatted_blocks (existsb is_html (outputs r)) fd md).1),
     match (formatted_blocks (existsb is_html (outputs r)) fd md).2 with
     | Some e => inl e
     | None => inr tt
     end).
Proof.
  unfold process_formatted, formatted_blocks.
  unfold mbind.
  do 3 step_with present_flag_run.
  step_with present_run.
  match goal with
  | |- M_bind _ _ _ _ (_, ?r0) = _ =>
      pose proof (json_flag_run fd md
        (false || has_key fd "image/png" || has_key fd "image/jpeg"
         || has_key fd "image/svg+xml") s r0) as Hj
  end.
  unfold mbind in Hj.
  destruct (json_block_for fd md) as [e|jb] eqn:Hjb.
  - erewrite run_bind_err by exact Hj. simpl.
    unfold before_json. by rewrite <- !app_assoc.
  - erewrite run_bind_ok by exact Hj. cbv beta. rewrite ?add_blocks_app.
    do 3 step_with present_flag_run.
    assert (false || has_key fd "image/png" || has_key fd "image/jpeg"
            || has_key fd "image/svg+xml" || has_key fd "application/json"
            || has_key fd "text/latex" || has_key fd "text/markdown"
            || has_key fd "application/javascript" = output_added_for fd) as ->
      by reflexivity.
    assert (∀ bs, existsb is_html (outputs (add_blocks r bs))
                  = existsb is_html (outputs r) || existsb is_html bs) as Hex.
    { intros bs. simpl. apply existsb_app. }
    unfold block_for at 8.
    destruct (fd !! "text/plain") as [x|] eqn:Hx.
    + unfold get_result. erewrite run_bind_ok by reflexivity.
      cbn [snd]. rewrite Hex.
      rewrite !existsb_app, !existsb_is_html_block_for,
        (existsb_is_html_json _ _ _ Hjb).
      simpl String.eqb. rewrite ?andb_false_l, ?orb_false_r, ?orb_false_l, andb_true_l.
      unfold before_json, after_json.
      destruct (negb (output_added_for fd)
                || (existsb is_html (outputs r) || has_key fd "text/html")).
      * rewrite emit_run, add_blocks_app. cbn [fst snd]. by rewrite <- !app_assoc.
      * cbn [fst snd]. unfold mret, M_ret. by rewrite app_nil_r, <- !app_assoc.
    + unfold mret, M_ret, before_json, after_json.
      destruct (negb (output_added_for fd)
                || (existsb is_html (outputs r) || has_key fd "text/html"));
        cbn [fst snd]; by rewrite app_nil_r, <- !app_assoc.
Qed.

Lemma process_result_run value s r :
  process_result value (s, r)
  = if is_None value then ((s, r), inr tt)
    else if is_dict_or_list value then
      match json_dumps value with
      | inl e => ((s, r), inl e)
      | inr t => ((s, add_blocks r [Block "json" (PStr t) empty_dict]), inr tt)
      end
    else
      match display_format s value with
      | (s', inl e) => ((s', r), inl e)
      | (s', inr (fd, md)) =>
          ((s', add_blocks r (formatted_blocks (existsb is_html (outputs r)) fd md).1),
           match (formatted_blocks (existsb is_html (outputs r)) fd md).2 with
           | Some e => inl e
           | None => inr tt
           end)
      end.
Proof.
  unfold process_result.
  destruct (is_None value); [done|].
  destruct (is_dict_or_list value).
  - unfold mbind, M_bind, lift_either. by destruct (json_dumps value).
  - unfold mbind, M_bind, shell_op. cbn [fst snd].
    destruct (display_format s value) as [s' [e|[fd md]]]; [done|].
    apply process_formatted_run.
Qed.

(** *** The whole [try] block *)

Lemma execute_body_run s code s1 captured exec_result :
  run_cell s code = (s1, inr (captured, exec_result)) →
  execute_body code (s, initial_result)
  = match all_display_blocks (cap_outputs captured) with
    | (db, Some e) =>
        ((s1, add_blocks (captured_result captured exec_result) db), inl e)
    | (db, None) =>
        let '(s2, figs) := capture_matplotlib_figures s1 in
        process_result (result exec_result)
          (s2, add_blocks (captured_result captured exec_result)
                 (db ++ map figure_block figs))
    end.
Proof.
  intros Hrun. unfold execute_body, mbind.
  erewrite run_bind_ok by (unfold shell_op; cbn [fst snd]; by rewrite Hrun).
  cbn beta iota.
  erewrite run_bind_ok by reflexivity.
  erewrite run_bind_ok by reflexivity.
  erewrite run_bind_ok with (st' := (s1, captured_result captured exec_result))
                            (x := tt)
    by (unfold captured_result; by destruct (error_in_exec exec_result)).
  pose proof (for_each_display_run (cap_outputs captured) s1
                (captured_result captured exec_result)) as Hd.
  destruct (all_display_blocks (cap_outputs captured)) as [db [e|]];
    cbn [fst snd] in Hd.
  - by erewrite run_bind_err by exact Hd.
  - erewrite run_bind_ok by exact Hd.
    destruct (capture_matplotlib_figures s1) as [s2 figs] eqn:Hfig.
    erewrite run_bind_ok
      by (unfold shell_op; cbn [fst snd]; by rewrite Hfig).
    erewrite run_bind_ok by apply for_each_figures_run.
    by rewrite add_blocks_app.
Qed.

Lemma execute_body_run_raise s code s1 e :
  run_cell s code = (s1, inl e) →
  execute_body code (s, initial_result) = ((s1, initial_result), inl e).
Proof.
  intros Hrun. unfold execute_body, mbind.
  erewrite run_bind_err; [done|].
  unfold shell_op; cbn [fst snd]. by rewrite Hrun.
Qed.

(** *** What a statement appends *)

Lemma appended_by_add_blocks (m : M (S:=S) unit) s r s' bs res :
  m (s, r) = ((s', add_blocks r bs), res) → appended_by m s r = bs.
Proof.
  intros Hm. unfold appended_by. rewrite Hm. cbn [fst snd].
  rewrite outputs_add_blocks. by rewrite drop_app_length.
Qed.

Lemma appended_by_display_loop outs s r :
  appended_by (for_each process_display_output outs) s r
  = (all_display_blocks outs).1.
Proof. eapply appended_by_add_blocks, for_each_display_run. Qed.

Lemma appended_by_process_result value s r :
  appended_by (process_result value) s r
  = value_blocks s (existsb is_html (outputs r)) value.
Proof.
  unfold value_blocks.
  pose proof (process_result_run value s r) as Hrun.
  destruct (is_None value).
  { eapply appended_by_add_blocks. rewrite Hrun. by rewrite add_blocks_nil. }
  destruct (is_dict_or_list value).
  { destruct (json_dumps value).
    - eapply appended_by_add_blocks. rewrite Hrun. by rewrite add_blocks_nil.
    - eapply appended_by_add_blocks. exact Hrun. }
  destruct (display_format s value) as [s' [e|[fd md]]].
  - eapply appended_by_add_blocks. rewrite Hrun. by rewrite add_blocks_nil.
  - eapply appended_by_add_blocks. exact Hrun.
Qed.

Lemma existsb_is_html_figures (figs : list string) :
  existsb is_html (map figure_block figs) = false.
Proof. by induction figs. Qed.

(** The result of [process_result] keeps the text fields and the error,
    and appends [value_blocks]. *)
Lemma process_result_state value s r :
  ∃ s', (process_result value (s, r)).1
        = (s', add_blocks r (value_blocks s (existsb is_html (outputs r)) value)).
Proof.
  rewrite process_result_run. unfold value_blocks.
  destruct (is_None value). { exists s. by rewrite add_blocks_nil. }
  destruct (is_dict_or_list value).
  { destruct (json_dumps value); exists s; [by rewrite add_blocks_nil|done]. }
  destruct (display_format s value) as [s' [e|[fd md]]]; exists s';
    [by rewrite add_blocks_nil|done].
Qed.

(** The outputs of an execution in which the display loop does not raise:
    the blocks of the display calls, the figures, the blocks of the value. *)
Lemma execute_code_result s code s1 captured exec_result db s2 figs :
  run_cell s code = (s1, inr (captured, exec_result)) →
  all_display_blocks (cap_outputs captured) = (db, None) →
  capture_matplotlib_figures s1 = (s2, figs) →
  ∃ err,
    (execute_code s code).2
    = {| stdout := cap_stdout captured;
         stderr := cap_stderr captured;
         error := err;
         outputs := db ++ map figure_block figs
                    ++ value_blocks s2 (existsb is_html db) (result exec_result) |}
    ∧ match (execute_body code (s, initial_result)).2 with
      | inl e => err = Some (error_of_internal e)
      | inr _ => err = error_of_exec <$> error_in_exec exec_result
      end.
Proof.
  intros Hrun Hdb Hfig. unfold execute_code.
  rewrite (execute_body_run _ _ _ _ _ Hrun), Hdb, Hfig.
  set (r0 := add_blocks (captured_result captured exec_result)
               (db ++ map figure_block figs)).
  destruct (process_result_state (result exec_result) s2 r0) as [s3 Hst].
  destruct (process_result (result exec_result) (s2, r0)) as [[s3' r3] res].
  cbn [fst snd] in Hst. injection Hst as -> ->.
  rewrite existsb_app, existsb_is_html_figures, orb_false_r.
  destruct res as [e|[]]; cbn [fst snd].
  - eexists. split; [|reflexivity].
    subst r0. unfold set_error, add_blocks, captured_result. simpl.
    by rewrite <- app_assoc.
  - eexists. split; [|reflexivity].
    subst r0. unfold add_blocks, captured_result. simpl.
    by rewrite <- app_assoc.
Qed.

End ExecutorFacts.

(** ** Claims about the executor *)

Ltac by_positions H :=
  let i := fresh "i" in
  let j := fresh "j" in
  let Hlt := fresh in
  let Hi := fresh in
  let Hj := fresh in
  destruct H as (i & j & Hlt & Hi & Hj);
  repeat (destruct i as [|i]; simpl in Hi; try discriminate Hi);
  repeat (destruct j as [|j]; simpl in Hj; try discriminate Hj);
  try lia.

Section ExecutorClaims.
Context {S : Type} `{!Interpreter S}.

(** C4 (amended): when the display loop of an execution does not raise,
    the outputs are the blocks of the captured display calls, then the
    image blocks of the drained figures, then the blocks of the value of
    the last expression: the figures come after the display blocks and
    before the blocks of the value. *)
Theorem figures_between_display_and_value
    (s : S) code s1 captured exec_result s2 figs :
  run_cell s code = (s1, inr (captured, exec_result)) →
  (for_each process_display_output (cap_outputs captured)
     (s1, captured_result captured exec_result)).2 = inr tt →
  capture_matplotlib_figures s1 = (s2, figs) →
  let display :=
    appended_by (for_each process_display_output (cap_outputs captured))
      s1 (captured_result captured exec_result) in
  outputs (execute_code s code).2
  = display ++ map figure_block figs
    ++ appended_by (process_result (result exec_result)) s2
         (add_blocks (captured_result captured exec_result)
            (display ++ map figure_block figs)).
Proof.
  intros Hrun Hloop Hfig display. subst display.
  rewrite for_each_display_run in Hloop. cbn [snd] in Hloop.
  rewrite appended_by_display_loop, appended_by_process_result.
  destruct (all_display_blocks (cap_outputs captured)) as [db [e|]] eqn:Hdb;
    [discriminate Hloop|].
  destruct (execute_code_result _ _ _ _ _ _ _ _ Hrun Hdb Hfig) as (err & -> & _).
  cbn [fst outputs]. rewrite outputs_add_blocks. unfold captured_result at 1.
  cbn [outputs app].
  by rewrite existsb_app, existsb_is_html_figures, orb_false_r.
Qed.


End ExecutorClaims.

Lemma figures_between_display_and_value_witness :
  outputs (execute_code session_figure_and_value (PStr "plt.plot([1, 2]); 42")).2
  = [] ++ [figure_block "UE5H"]
    ++ [{| type := "text"; data := PStr "42"; metadata := empty_dict |}].
Proof.
  exact (figures_between_display_and_value
           session_figure_and_value (PStr "plt.plot([1, 2]); 42")
           _ _ _ _ _ eq_refl eq_refl eq_refl).
Defined.

(** C4, as stated, fails: with one pending figure and the value [42], the
    image of the figure comes before the text block of the value, not after. *)
Lemma figures_after_value_counterexample :
  let r := (execute_code session_figure_and_value (PStr "plt.plot([1, 2]); 42")).2 in
  let fig := figure_block (b64encode "PNG") in
  let val := {| type := "text"; data := PStr "42"; metadata := empty_dict |} in
  outputs r = [fig; val] ∧ ¬ precedes val fig (outputs r).
Proof.
  split; [reflexivity|].
  intros H. change (outputs _) with [figure_block "UE5H";
    {| type := "text"; data := PStr "42"; metadata := empty_dict |}] in H.
  by_positions H.
Qed.



Section ExecutorErrorClaims.
Context {S : Type} `{!Interpreter S}.

(** C3 (amended): when the capture or formatting machinery raises inside
    [execute_code], the error of the returned dict is built from that
    exception, with the name of its class as type, and the partial result
    is kept, not discarded: if the cell had been run, [stdout] and
    [stderr] are the captured texts and the outputs start with the blocks
    of the display calls appended before the exception; if running the
    cell raised, the text fields and the outputs are still empty. *)
Theorem internal_error_keeps_partial_result (s : S) code e :
  (execute_body code (s, initial_result)).2 = inl e →
  let r := (execute_code s code).2 in
  error r = Some {| err_type := exn_class e;
                    err_message := exn_message e;
                    err_traceback := exn_format_exc e |}
  ∧ match (run_cell s code).2 with
    | inl _ => stdout r = "" ∧ stderr r = "" ∧ outputs r = []
    | inr (captured, exec_result) =>
        stdout r = cap_stdout captured
        ∧ stderr r = cap_stderr captured
        ∧ appended_by (for_each process_display_output (cap_outputs captured))
            (run_cell s code).1 (captured_result captured exec_result)
          `prefix_of` outputs r
    end.
Proof.
  intros Hbody r. subst r.
  destruct (run_cell s code) as [s1 [e0|[captured exec_result]]] eqn:Hrun;
    cbn [fst snd].
  - unfold execute_code. rewrite (execute_body_run_raise _ _ _ _ Hrun) in Hbody |- *.
    cbn [snd] in Hbody. injection Hbody as ->. done.
  - rewrite appended_by_display_loop.
    destruct (all_display_blocks (cap_outputs captured)) as [db [e1|]] eqn:Hdb.
    + unfold execute_code.
      rewrite (execute_body_run _ _ _ _ _ Hrun), Hdb in Hbody |- *.
      cbn [snd] in Hbody. injection Hbody as ->. cbn [fst snd].
      repeat split. simpl. reflexivity.
    + destruct (capture_matplotlib_figures s1) as [s2 figs] eqn:Hfig.
      destruct (execute_code_result _ _ _ _ _ _ _ _ Hrun Hdb Hfig)
        as (err & -> & Herr).
      rewrite Hbody in Herr. subst err. cbn [fst error stdout stderr outputs].
      repeat split. by eexists.
Qed.


End ExecutorErrorClaims.

(** C3, as stated, fails: a display call whose JSON data cannot be
    serialized makes [json.dumps] raise inside [execute_code]; the response
    then has the type [TypeError], the name of the raised class, and keeps
    the captured [stdout] and the block appended before the exception. *)
Lemma internal_error_discards_counterexample :
  let r := (execute_code session_internal_error (PStr "cell")).2 in
  (execute_body (PStr "cell") (session_internal_error, initial_result)).2
  = inl (TypeError "Object of type set is not JSON serializable")
  ∧ (err_type <$> error r) = Some "TypeError"
  ∧ stdout r = "a" +:+ newline
  ∧ outputs r = [{| type := "text"; data := PStr "hi"; metadata := empty_dict |}].
Proof. repeat split. Qed.

Lemma internal_error_keeps_partial_result_witness :
  let r := (execute_code session_internal_error (PStr "cell")).2 in
  error r = Some {| err_type := "TypeError";
                    err_message := "Object of type set is not JSON serializable";
                    err_traceback :=
                      exn_format_exc
                        (TypeError "Object of type set is not JSON serializable") |}
  ∧ stdout r = "a" +:+ newline
  ∧ stderr r = ""
  ∧ [{| type := "text"; data := PStr "hi"; metadata := empty_dict |}]
    `prefix_of` outputs r.
Proof.
  exact (internal_error_keeps_partial_result session_internal_error (PStr "cell")
           (TypeError "Object of type set is not JSON serializable") eq_refl).
Defined.

(** ** Claims about the request loop *)

Lemma to_json_members_cons k x kvs :
  to_json_members ((k, x) :: kvs)
  = match key_to_json k with
    | inl e => inl e
    | inr s =>
        match to_json x with
        | inl e => inl e
        | inr j => match to_json_members kvs with
                   | inl e => inl e
                   | inr ms => inr ((s, j) :: ms)
                   end
        end
    end.
Proof. reflexivity. Qed.

(** The document of a response that can be serialized. *)
Lemma response_to_json r execution_id success j :
  to_json (response_to_py r execution_id success) = inr j →
  ∃ js jid,
    j = JObj [("stdout", JStr (stdout r)); ("stderr", JStr (stderr r));
              ("error", error_to_json (error r)); ("outputs", JArr js);
              ("executionId", jid); ("success", JBool success)].
Proof.
  unfold response_to_py.
  rewrite to_json_PDict, !to_json_members_cons, to_json_PList.
  assert (to_json (error_to_py (error r)) = inr (error_to_json (error r))) as ->
    by (by destruct (error r)).
  cbn [key_to_json to_json to_json_members].
  destruct (to_json_items _) as [?|js]; [discriminate|].
  destruct (to_json execution_id) as [?|jid]; [discriminate|].
  intros [= <-]. by exists js, jid.
Qed.

Section LoopFacts.
Context {S : Type} `{!Interpreter S}.
Variable loads : string → exn + pyval.

(** The iteration for a line that decodes to a dict: the response is the
    serialized result, or the internal error report when the result
    cannot be serialized. *)
Lemma iteration_dict (s : S) line items :
  loads (strip line) = inr (PDict items) →
  iteration loads s line
  = let '(s', r) := execute_code s (dict_get items "code" (PStr "")) in
    (s', Some match to_json (response_to_py r (dict_get items "executionId" PNone)
                               (bool_decide (error r = None))) with
              | inr j => j
              | inl e => internal_error_response e
              end).
Proof.
  intros Hl. unfold iteration, handle_line. rewrite Hl. cbn [request_get].
  destruct (execute_code s _) as [s' r].
  destruct (to_json _) as [e|j] eqn:Hj; [|done].
  by rewrite (to_json_class _ _ Hj).
Qed.

(** The iteration for a line that decodes to something else. *)
Lemma iteration_not_dict (s : S) line request :
  loads (strip line) = inr request →
  (∀ items, request ≠ PDict items) →
  iteration loads s line
  = (s, Some (internal_error_response
                (AttributeError ("'" +:+ class_name request
                                 +:+ "' object has no attribute 'get'")))).
Proof.
  intros Hl Hnd. unfold iteration, handle_line. rewrite Hl.
  destruct request; try done. by destruct (Hnd items).
Qed.



End LoopFacts.

Section LoopErrorClaims.
Context {S : Type} `{!Interpreter S}.
Variable loads : string → exn + pyval.


End LoopErrorClaims.





(** ** Claims about the selection of representations *)

Lemma existsb_type_block_for (d md : gmap string pyval) mime ty t :
  existsb (λ b, String.eqb (type b) t) (block_for d md mime ty)
  = String.eqb ty t && has_key d mime.
Proof.
  unfold block_for, has_key. destruct (d !! mime) as [x|] eqn:Hd.
  - rewrite bool_decide_eq_true_2 by eauto. simpl.
    by rewrite orb_false_r, andb_true_r.
  - rewrite bool_decide_eq_false_2 by (by intros [? ?]). by rewrite andb_false_r.
Qed.

Lemma forallb_block_for (P : block → bool) (d md : gmap string pyval) mime ty :
  (∀ x m, P (Block ty x m) = P (Block ty PNone PNone)) →
  forallb P (block_for d md mime ty)
  = negb (has_key d mime) || P (Block ty PNone PNone).
Proof.
  intros HP. unfold block_for, has_key. destruct (d !! mime) as [x|] eqn:Hd.
  - rewrite bool_decide_eq_true_2 by eauto. simpl. by rewrite andb_true_r, HP.
  - by rewrite bool_decide_eq_false_2 by (by intros [? ?]).
Qed.

Lemma json_block_for_inv (d md : gmap string pyval) jb :
  json_block_for d md = inr jb →
  existsb is_text jb = false ∧ existsb is_html jb = false
  ∧ forallb is_html_or_text jb = negb (has_key d "application/json").
Proof.
  unfold json_block_for, has_key.
  destruct (d !! "application/json") as [x|] eqn:Hd.
  - rewrite bool_decide_eq_true_2 by eauto.
    destruct (json_dumps x); [done|]. by intros [= <-].
  - rewrite bool_decide_eq_false_2 by (by intros [? ?]). by intros [= <-].
Qed.

Lemma has_key_Some (d : gmap string pyval) mime x :
  d !! mime = Some x → has_key d mime = true.
Proof. intros Hd. unfold has_key. apply bool_decide_eq_true_2. eauto. Qed.

Lemma has_key_None (d : gmap string pyval) mime :
  d !! mime = None → has_key d mime = false.
Proof.
  intros Hd. unfold has_key. apply bool_decide_eq_false_2. rewrite Hd. by intros [? ?].
Qed.

Lemma has_key_true (d : gmap string pyval) mime :
  has_key d mime = true ↔ is_Some (d !! mime).
Proof. unfold has_key. apply bool_decide_eq_true. Qed.

Lemma block_for_None (d md : gmap string pyval) mime ty :
  d !! mime = None → block_for d md mime ty = [].
Proof. intros Hd. unfold block_for. by rewrite Hd. Qed.

Lemma precedes_middle (a b : block) l1 l2 l3 :
  precedes a b (l1 ++ a :: l2 ++ b :: l3).
Proof.
  exists (length l1), (length l1 + Datatypes.S (length l2))%nat.
  split; [lia|]. split.
  - by apply list_lookup_middle.
  - rewrite lookup_app_r by lia.
    replace (length l1 + Datatypes.S (length l2) - length l1)%nat
      with (Datatypes.S (length l2)) by lia.
    simpl. by apply list_lookup_middle.
Qed.

(** Two different keys make a mapping of more than one entry. *)
Lemma size_two_keys (d : gmap string pyval) k1 k2 :
  k1 ≠ k2 → is_Some (d !! k1) → is_Some (d !! k2) → size d ≠ 1%nat.
Proof.
  intros Hne H1 H2 Hsz.
  pose proof (map_size_delete_Some k1 d H1) as Hdel. rewrite Hsz in Hdel.
  apply map_size_empty_iff in Hdel.
  destruct H2 as [x Hx].
  assert (delete k1 d !! k2 = Some x) as Hk by (by rewrite lookup_delete_ne).
  rewrite Hdel in Hk. by rewrite lookup_empty in Hk.
Qed.

Section SelectorClaims.
Context {S : Type} `{!Interpreter S}.

(** C10: for a captured display call, a text block is appended only when
    the data mapping has exactly one key; a payload with [text/plain]
    and, besides it, only kinds the executor does not know, appends no
    block at all. *)
Theorem display_text_needs_single_key (s : S) r output d :
  out_data output = Some d →
  let bs := appended_by (process_display_output output) s r in
  (existsb is_text bs = true → size d = 1%nat ∧ is_Some (d !! "text/plain"))
  ∧ (is_Some (d !! "text/plain") →
     (∃ k, k ≠ "text/plain" ∧ is_Some (d !! k)) →
     (∀ k, k ∈ display_kinds → k ≠ "text/plain" → d !! k = None) →
     bs = []).
Proof.
  intros Hd bs.
  assert (bs = (display_blocks output).1) as ->
    by (eapply appended_by_add_blocks, process_display_output_run).
  unfold display_blocks. rewrite Hd.
  set (md := default ∅ (out_metadata output)).
  split.
  - destruct (json_block_for d md) as [e|jb] eqn:Hjb; cbn [fst].
    + unfold before_json.
      rewrite !existsb_app. unfold is_text.
      rewrite !existsb_type_block_for. simpl. discriminate.
    + destruct (json_block_for_inv _ _ _ Hjb) as (Hjt & _ & _).
      unfold before_json, after_json.
      rewrite !existsb_app, Hjt. unfold is_text.
      rewrite !existsb_type_block_for. simpl.
      destruct (Nat.eqb_spec (size d) 1) as [Hsz|Hsz]; [|discriminate].
      rewrite existsb_type_block_for. simpl.
      intros Hk%has_key_true. done.
  - intros Htext (k & Hk & Hdk) Hnone.
    assert (size d ≠ 1%nat) as Hsz by eauto using size_two_keys.
    assert (∀ k, k ∈ display_kinds → k ≠ "text/plain" → d !! k = None) as Hn
      by done.
    unfold json_block_for, before_json, after_json.
    rewrite (Hn "application/json") by (unfold display_kinds; set_solver).
    cbn [fst].
    rewrite !block_for_None by (apply Hn; [unfold display_kinds; set_solver|done]).
    by destruct (Nat.eqb_spec (size d) 1).
Qed.

End SelectorClaims.

Lemma display_text_needs_single_key_witness :
  (size ({["text/plain" := PStr "hi"]} : gmap string pyval) = 1%nat
   ∧ is_Some (({["text/plain" := PStr "hi"]} : gmap string pyval) !! "text/plain"))
  ∧ appended_by (process_display_output payload_text_and_unknown)
      (session_value PNone) initial_result = [].
Proof.
  split.
  - apply (display_text_needs_single_key (session_value PNone) initial_result
             payload_text_only _ eq_refl).
    reflexivity.
  - apply (display_text_needs_single_key (session_value PNone) initial_result
             payload_text_and_unknown _ eq_refl).
    + by eexists.
    + exists "application/x-custom". split; [discriminate|by eexists].
    + intros k Hk Hne. unfold display_kinds in Hk.
      repeat (apply elem_of_cons in Hk as [->|Hk]; [try reflexivity; done|]).
      by apply elem_of_nil in Hk.
Defined.

Section ValueClaims.
Context {S : Type} `{!Interpreter S}.

(** The blocks of a rendered value when no html block precedes them and
    [json.dumps] accepts the JSON data: every present kind in the order
    of precedence, the text last and only under the rule on
    [output_added]. *)
Lemma rendered_value_blocks (s : S) r value s' fd md :
  is_None value = false →
  is_dict_or_list value = false →
  display_format s value = (s', inr (fd, md)) →
  existsb is_html (outputs r) = false →
  (∀ x, fd !! "application/json" = Some x → ∃ t, json_dumps x = inr t) →
  ∃ jb,
    json_block_for fd md = inr jb
    ∧ appended_by (process_result value) s r
      = before_json fd md ++ jb ++ after_json fd md
        ++ (if negb (output_added_for fd) || has_key fd "text/html"
            then block_for fd md "text/plain" "text" else []).
Proof.
  intros Hn Hdl Hfmt Hhtml Hjson.
  rewrite appended_by_process_result. unfold value_blocks.
  rewrite Hn, Hdl, Hfmt, Hhtml. unfold formatted_blocks.
  assert (∃ jb, json_block_for fd md = inr jb) as [jb Hjb].
  { unfold json_block_for. destruct (fd !! "application/json") as [x|] eqn:Hx;
      [|by eexists].
    destruct (Hjson x eq_refl) as [t ->]. by eexists. }
  exists jb. by rewrite Hjb.
Qed.

(** C1 (amended): for a value rendered on demand, when no html block is
    already among the outputs and [json.dumps] accepts the JSON data of
    the rendering, a text block is appended for the value if and only if
    the rendering has [text/plain] and either every block appended for
    the value is an html block or the text block itself (no other kind
    was added), or an html block was appended for it; and when the
    rendering has both [text/html] and [text/plain], the html block and
    the text block are both appended, html first. *)
Theorem value_text_rule (s : S) r value s' fd md :
  is_None value = false →
  is_dict_or_list value = false →
  display_format s value = (s', inr (fd, md)) →
  existsb is_html (outputs r) = false →
  (∀ x, fd !! "application/json" = Some x → ∃ t, json_dumps x = inr t) →
  let bs := appended_by (process_result value) s r in
  (existsb is_text bs = true
   ↔ is_Some (fd !! "text/plain")
     ∧ (forallb is_html_or_text bs = true ∨ existsb is_html bs = true))
  ∧ (∀ h t, fd !! "text/html" = Some h → fd !! "text/plain" = Some t →
       precedes {| type := "html"; data := h; metadata := metadata_get md "text/html" |}
                {| type := "text"; data := t; metadata := metadata_get md "text/plain" |}
                bs).
Proof.
  intros Hn Hdl Hfmt Hhtml Hjson bs.
  destruct (rendered_value_blocks _ _ _ _ _ _ Hn Hdl Hfmt Hhtml Hjson)
    as (jb & Hjb & Hbs).
  subst bs. rewrite Hbs. clear Hbs.
  destruct (json_block_for_inv _ _ _ Hjb) as (Hjt & Hjh & Hjf).
  split.
  - assert (existsb is_text
              (before_json fd md ++ jb ++ after_json fd md
               ++ (if negb (output_added_for fd) || has_key fd "text/html"
                   then block_for fd md "text/plain" "text" else []))
            = (negb (output_added_for fd) || has_key fd "text/html")
              && has_key fd "text/plain") as ->.
    { unfold before_json, after_json. rewrite !existsb_app, Hjt. unfold is_text.
      rewrite !existsb_type_block_for. simpl.
      destruct (negb (output_added_for fd) || has_key fd "text/html"); [|done].
      by rewrite existsb_type_block_for. }
    assert (existsb is_html
              (before_json fd md ++ jb ++ after_json fd md
               ++ (if negb (output_added_for fd) || has_key fd "text/html"
                   then block_for fd md "text/plain" "text" else []))
            = has_key fd "text/html") as ->.
    { unfold before_json, after_json. rewrite !existsb_app, Hjh. unfold is_html.
      rewrite !existsb_type_block_for. simpl.
      destruct (negb (output_added_for fd) || has_key fd "text/html");
        [rewrite existsb_type_block_for|]; simpl; by rewrite !orb_false_r. }
    assert (forallb is_html_or_text
              (before_json fd md ++ jb ++ after_json fd md
               ++ (if negb (output_added_for fd) || has_key fd "text/html"
                   then block_for fd md "text/plain" "text" else []))
            = negb (output_added_for fd)) as ->.
    { unfold before_json, after_json. rewrite !forallb_app, Hjf.
      rewrite !forallb_block_for by done.
      assert (forallb is_html_or_text
                (if negb (output_added_for fd) || has_key fd "text/html"
                 then block_for fd md "text/plain" "text" else []) = true) as ->.
      { destruct (negb (output_added_for fd) || has_key fd "text/html"); [|done].
        rewrite forallb_block_for by done. apply orb_true_r. }
      unfold output_added_for. cbn.
      destruct (has_key fd "image/png"), (has_key fd "image/jpeg"),
        (has_key fd "image/svg+xml"), (has_key fd "text/html"),
        (has_key fd "application/json"), (has_key fd "text/latex"),
        (has_key fd "text/markdown"), (has_key fd "application/javascript");
        reflexivity. }
    rewrite <- has_key_true.
    destruct (output_added_for fd), (has_key fd "text/html"),
      (has_key fd "text/plain"); simpl; intuition discriminate.
  - intros h t Hh Ht.
    rewrite (has_key_Some _ _ _ Hh), orb_true_r.
    unfold before_json, block_for at 4 5. rewrite Hh, Ht.
    rewrite <- !app_assoc. rewrite !app_assoc.
    rewrite <- (app_assoc _ [_] jb), <- (app_assoc _ ([_] ++ jb)).
    rewrite <- (app_assoc _ (([_] ++ jb) ++ _)).
    simpl. apply precedes_middle.
Qed.

End ValueClaims.

Lemma value_text_rule_witness :
  let bs := appended_by (process_result (POpaque "DataFrame" 1))
              (session_value (POpaque "DataFrame" 1)) initial_result in
  (existsb is_text bs = true
   ↔ is_Some (({["text/html" := PStr "<table></table>";
                 "text/plain" := PStr "Empty DataFrame"]} : gmap string pyval)
              !! "text/plain")
     ∧ (forallb is_html_or_text bs = true ∨ existsb is_html bs = true))
  ∧ (∀ h t,
       ({["text/html" := PStr "<table></table>";
          "text/plain" := PStr "Empty DataFrame"]} : gmap string pyval)
       !! "text/html" = Some h →
       ({["text/html" := PStr "<table></table>";
          "text/plain" := PStr "Empty DataFrame"]} : gmap string pyval)
       !! "text/plain" = Some t →
       precedes {| type := "html"; data := h; metadata := metadata_get ∅ "text/html" |}
                {| type := "text"; data := t; metadata := metadata_get ∅ "text/plain" |}
                bs).
Proof.
  apply (value_text_rule (session_value (POpaque "DataFrame" 1)) initial_result
           (POpaque "DataFrame" 1) (session_value (POpaque "DataFrame" 1))).
  - reflexivity.
  - reflexivity.
  - reflexivity.
  - reflexivity.
  - intros x Hx. discriminate Hx.
Defined.

(** C1, as stated, fails: a value whose rendering is empty (an object that
    displays itself) adds no block of any kind, so [output_added] is false,
    and yet no text block is appended, the rendering having no
    [text/plain]. *)
Lemma value_text_rule_counterexample :
  let bs := outputs (execute_code (session_value (POpaque "Widget" 1))
                       (PStr "widget")).2 in
  bs = []
  ∧ ¬ (existsb is_text bs = true
       ↔ forallb is_html_or_text bs = true ∨ existsb is_html bs = true).
Proof.
  split; [reflexivity|].
  intros [_ H]. specialize (H (or_introl eq_refl)). discriminate H.
Qed.

(** C2 (the code at the failing input): after a display of an HTML
    object, an [Image] as last expression, whose rendering has [image/png]
    and [text/plain] and no [text/html], gets its image block and also a
    text block: the test for html looks at all the outputs, among them the
    html block of the display call. *)
Theorem image_value_after_html_display :
  outputs (execute_code session_html_display_then_image
             (PStr "display(HTML('<b>x</b>')); img")).2
  = [{| type := "html"; data := PStr "<b>x</b>"; metadata := empty_dict |};
     {| type := "image"; data := PStr "iVBORw0KGgo=";
        metadata := PDict [(PStr "width", PInt 2)] |};
     {| type := "text"; data := PStr "<Image object>"; metadata := empty_dict |}].
Proof. reflexivity. Qed.

(** ** The decoder inverts the encoder *)

Lemma string_app_cons c (a b : string) : String c a +:+ b = String c (a +:+ b).
Proof. reflexivity. Qed.

Lemma string_app_nil (b : string) : "" +:+ b = b.
Proof. reflexivity. Qed.

Lemma string_app_assoc (a b c : string) : (a +:+ b) +:+ c = a +:+ (b +:+ c).
Proof.
  induction a as [|x a IH]; [done|]. rewrite !string_app_cons. by f_equal.
Qed.

Lemma string_app_length (a b : string) :
  String.length (a +:+ b) = (String.length a + String.length b)%nat.
Proof.
  induction a as [|x a IH]; [done|]. rewrite string_app_cons. simpl. by f_equal.
Qed.

Ltac string_norm :=
  rewrite ?string_app_assoc, ?string_app_cons, ?string_app_nil.

Lemma json_text_JArr l : json_text (JArr l) = "[" +:+ items_text l +:+ "]".
Proof. reflexivity. Qed.

Lemma json_text_JObj ms : json_text (JObj ms) = "{" +:+ members_text ms +:+ "}".
Proof. reflexivity. Qed.

(** *** Numbers *)

Lemma scan_digits_cons c D t :
  digit_of c = Some D →
  scan_digits (String c t) = (let '(d, r) := scan_digits t in (D d, r)).
Proof. intros Hc. cbn [scan_digits]. by rewrite Hc. Qed.

Lemma scan_digits_string_of_uint d rest :
  follow_ok rest →
  scan_digits (NilEmpty.string_of_uint d +:+ rest) = (d, rest).
Proof.
  intros Hrest. induction d as [|d IH|d IH|d IH|d IH|d IH|d IH|d IH|d IH|d IH|d IH];
    cbn [NilEmpty.string_of_uint]; string_norm;
    try (erewrite scan_digits_cons by reflexivity; by rewrite IH).
  destruct rest as [|c rest]; [done|]. cbn [scan_digits].
  unfold follow_ok in Hrest. by rewrite Hrest.
Qed.

Lemma unorm_D0_inv d d' : Decimal.unorm d = Decimal.D0 d' → d' = Decimal.Nil.
Proof.
  unfold Decimal.unorm.
  destruct (Decimal.nzhead d) eqn:Hd; intros [= ?]; subst; try done.
  by destruct (DecimalFacts.nzhead_nonzero d d').
Qed.

Lemma to_uint_unorm p : Decimal.unorm (Pos.to_uint p) = Pos.to_uint p.
Proof.
  rewrite <- (DecimalPos.Unsigned.to_of (Pos.to_uint p)).
  by rewrite DecimalPos.Unsigned.of_to.
Qed.

Lemma to_uint_no_leading_zero p d : Pos.to_uint p ≠ Decimal.D0 d.
Proof.
  intros Hp.
  assert (d = Decimal.Nil) as ->
    by (apply (unorm_D0_inv (Pos.to_uint p)); by rewrite to_uint_unorm).
  by apply (DecimalPos.Unsigned.to_uint_nonzero p).
Qed.

Lemma of_uint_to_uint p : Z.of_uint (Pos.to_uint p) = Z.pos p.
Proof. unfold Z.of_uint. by rewrite DecimalPos.Unsigned.of_to. Qed.

(** The text of a run of digits starts with a digit. *)
Lemma string_of_uint_head d :
  d ≠ Decimal.Nil →
  ∃ c t, NilEmpty.string_of_uint d = String c t
         ∧ (N_of_ascii c =? 45)%N = false ∧ number_start c = true.
Proof. destruct d; [done|..]; intros _; by do 2 eexists. Qed.

Lemma finish_number_to_uint negative p rest :
  finish_number negative (Pos.to_uint p, rest)
  = Some (if negative then Z.neg p else Z.pos p, rest).
Proof.
  pose proof (to_uint_no_leading_zero p) as Hz.
  pose proof (DecimalPos.Unsigned.to_uint_nonnil p) as Hnil.
  pose proof (of_uint_to_uint p) as Hof.
  unfold finish_number.
  destruct (Pos.to_uint p) as [|d|d|d|d|d|d|d|d|d|d];
    try done; try (by destruct (Hz d)); rewrite Hof; by destruct negative.
Qed.

Lemma scan_number_repr_int n rest :
  follow_ok rest → scan_number (repr_int n +:+ rest) = Some (n, rest).
Proof.
  intros Hrest. unfold repr_int. destruct n as [|p|p].
  - change (NilZero.string_of_int (Z.to_int 0)) with "0". string_norm.
    unfold scan_number. change (N_of_ascii "0" =? 45)%N with false. cbv iota.
    change (String "0" rest) with (NilEmpty.string_of_uint (Decimal.D0 Decimal.Nil) +:+ rest).
    by rewrite scan_digits_string_of_uint.
  - assert (NilZero.string_of_int (Z.to_int (Z.pos p))
            = NilEmpty.string_of_uint (Pos.to_uint p)) as ->.
    { unfold Z.to_int, NilZero.string_of_int, NilZero.string_of_uint.
      pose proof (DecimalPos.Unsigned.to_uint_nonnil p).
      by destruct (Pos.to_uint p). }
    destruct (string_of_uint_head (Pos.to_uint p)) as (c & t & Hct & Hc & _);
      [apply DecimalPos.Unsigned.to_uint_nonnil|].
    rewrite Hct. string_norm. unfold scan_number. rewrite Hc.
    rewrite <- string_app_cons, <- Hct.
    by rewrite scan_digits_string_of_uint, finish_number_to_uint.
  - assert (NilZero.string_of_int (Z.to_int (Z.neg p))
            = "-" +:+ NilEmpty.string_of_uint (Pos.to_uint p)) as ->.
    { unfold Z.to_int, NilZero.string_of_int, NilZero.string_of_uint.
      pose proof (DecimalPos.Unsigned.to_uint_nonnil p).
      by destruct (Pos.to_uint p). }
    string_norm. unfold scan_number. change (N_of_ascii "-" =? 45)%N with true.
    cbv iota.
    by rewrite scan_digits_string_of_uint, finish_number_to_uint.
Qed.

(** The text of an integer starts with a digit or the sign. *)
Lemma repr_int_head n :
  ∃ c t, repr_int n = String c t ∧ number_start c = true.
Proof.
  unfold repr_int. destruct n as [|p|p].
  - by do 2 eexists.
  - unfold Z.to_int, NilZero.string_of_int, NilZero.string_of_uint.
    pose proof (DecimalPos.Unsigned.to_uint_nonnil p) as Hnil.
    destruct (string_of_uint_head _ Hnil) as (c & t & Hct & _ & Hc).
    exists c, t. split; [|done]. rewrite <- Hct. by destruct (Pos.to_uint p).
  - by do 2 eexists.
Qed.

(** *** Strings *)

Lemma scan_string_escape_char c t :
  scan_string (escape_char c +:+ t)
  = match scan_string t with
    | Some (u, rest) => Some (String c u, rest)
    | None => None
    end.
Proof. destruct c as [[] [] [] [] [] [] [] []]; reflexivity. Qed.

Lemma scan_string_escape_string s rest :
  scan_string (escape_string s +:+ quote +:+ rest) = Some (s, rest).
Proof.
  induction s as [|c s IH]; [reflexivity|].
  cbn [escape_string]. rewrite string_app_assoc, scan_string_escape_char.
  by rewrite IH.
Qed.

Lemma json_string_app k rest :
  json_string k +:+ rest = String "034" (escape_string k +:+ quote +:+ rest).
Proof. unfold json_string. by rewrite !string_app_assoc. Qed.

(** *** The first character of a text *)

Lemma number_start_value_start c : number_start c = true → value_start c = true.
Proof. destruct c as [[] [] [] [] [] [] [] []]; by vm_compute. Qed.

Lemma json_text_head j :
  ∃ c t, json_text j = String c t ∧ value_start c = true.
Proof.
  destruct j as [|[]|n|s|l|ms]; try (by do 2 eexists).
  destruct (repr_int_head n) as (c & t & Hct & Hc).
  exists c, t. split; [done|]. by apply number_start_value_start.
Qed.

Lemma items_text_head x l :
  ∃ c t, items_text (x :: l) = String c t ∧ value_start c = true.
Proof.
  destruct (json_text_head x) as (c & t & Hct & Hc).
  destruct l as [|y l]; cbn [items_text]; rewrite Hct; by do 2 eexists.
Qed.

Lemma skip_ws_value_start c t :
  value_start c = true → skip_ws (String c t) = String c t.
Proof.
  intros Hc. cbn [skip_ws]. unfold value_start in Hc.
  by destruct (is_json_ws c).
Qed.

Lemma after_prefix_close_value_start c t :
  value_start c = true → after_prefix "]" (String c t) = None.
Proof.
  intros Hc. cbn [after_prefix]. unfold value_start in Hc.
  by destruct (Ascii.eqb "]" c); [rewrite andb_false_r in Hc|].
Qed.

(** *** Values *)

Lemma scan_value_number f c t :
  number_start c = true →
  scan_value (Datatypes.S f) (String c t)
  = match scan_number (String c t) with
    | Some (n, rest) => Some (JNum n, rest)
    | None => None
    end.
Proof.
  destruct c as [[] [] [] [] [] [] [] []]; intros Hc;
    first [discriminate Hc | reflexivity].
Qed.

Lemma scan_value_repr_int f n rest :
  follow_ok rest →
  scan_value (Datatypes.S f) (repr_int n +:+ rest) = Some (JNum n, rest).
Proof.
  intros Hrest. destruct (repr_int_head n) as (c & t & Hct & Hc).
  pose proof (scan_number_repr_int n rest Hrest) as Hn.
  rewrite Hct in Hn |- *. rewrite string_app_cons in Hn |- *.
  by rewrite scan_value_number, Hn.
Qed.

Lemma scan_value_string f s rest :
  scan_value (Datatypes.S f) (json_string s +:+ rest) = Some (JStr s, rest).
Proof.
  rewrite json_string_app.
  change (scan_value (Datatypes.S f) (String "034" ?t))
    with (match scan_string t with
          | Some (u, r) => Some (JStr u, r)
          | None => None
          end).
  by rewrite scan_string_escape_string.
Qed.

Section JsonInduction.
Variable P : json → Prop.
Hypothesis HNull : P JNull.
Hypothesis HBool : ∀ b, P (JBool b).
Hypothesis HNum : ∀ n, P (JNum n).
Hypothesis HStr : ∀ s, P (JStr s).
Hypothesis HArr : ∀ l, Forall P l → P (JArr l).
Hypothesis HObj : ∀ ms, Forall (λ kv, P kv.2) ms → P (JObj ms).

Fixpoint json_nested_ind (j : json) : P j :=
  match j with
  | JNull => HNull
  | JBool b => HBool b
  | JNum n => HNum n
  | JStr s => HStr s
  | JArr l =>
      HArr l ((fix go l : Forall P l :=
                 match l with
                 | [] => List.Forall_nil P
                 | x :: l' => @List.Forall_cons _ P x l' (json_nested_ind x) (go l')
                 end) l)
  | JObj ms =>
      HObj ms ((fix go ms : Forall (λ kv, P kv.2) ms :=
                  match ms with
                  | [] => List.Forall_nil _
                  | (k, x) :: ms' =>
                      @List.Forall_cons _ (λ kv, P kv.2) (k, x) ms'
                        (json_nested_ind x) (go ms')
                  end) ms)
  end.
End JsonInduction.

Lemma scan_items_eq f s :
  scan_items (Datatypes.S f) s
  = match scan_value f s with
    | None => None
    | Some (v, r) =>
        match after_prefix "]" (skip_ws r) with
        | Some rest => Some ([v], rest)
        | None =>
            match after_prefix "," (skip_ws r) with
            | Some r' =>
                match scan_items f (skip_ws r') with
                | Some (vs, rest) => Some (v :: vs, rest)
                | None => None
                end
            | None => None
            end
        end
    end.
Proof. reflexivity. Qed.

Lemma scan_members_eq f t :
  scan_members (Datatypes.S f) (String "034" t)
  = match scan_string t with
    | None => None
    | Some (k, r1) =>
        match after_prefix ":" (skip_ws r1) with
        | None => None
        | Some r2 =>
            match scan_value f (skip_ws r2) with
            | None => None
            | Some (v, r3) =>
                match after_prefix "}" (skip_ws r3) with
                | Some rest => Some ([(k, v)], rest)
                | None =>
                    match after_prefix "," (skip_ws r3) with
                    | Some r' =>
                        match scan_members f (skip_ws r') with
                        | Some (ms, rest) => Some ((k, v) :: ms, rest)
                        | None => None
                        end
                    | None => None
                    end
                end
            end
        end
    end.
Proof. reflexivity. Qed.

Lemma scan_value_array f t :
  scan_value (Datatypes.S f) (String "[" t)
  = match after_prefix "]" (skip_ws t) with
    | Some rest => Some (JArr [], rest)
    | None =>
        match scan_items f (skip_ws t) with
        | Some (vs, rest) => Some (JArr vs, rest)
        | None => None
        end
    end.
Proof. reflexivity. Qed.

Lemma scan_value_object f t :
  scan_value (Datatypes.S f) (String "{" t)
  = match after_prefix "}" (skip_ws t) with
    | Some rest => Some (JObj [], rest)
    | None =>
        match scan_members f (skip_ws t) with
        | Some (ms, rest) => Some (JObj ms, rest)
        | None => None
        end
    end.
Proof. reflexivity. Qed.

(** What the decoder sees between two values. *)
Lemma after_close_bracket t : after_prefix "]" (skip_ws (String "]" t)) = Some t.
Proof. reflexivity. Qed.
Lemma after_close_brace t : after_prefix "}" (skip_ws (String "}" t)) = Some t.
Proof. reflexivity. Qed.
Lemma comma_not_bracket t : after_prefix "]" (skip_ws (String "," t)) = None.
Proof. reflexivity. Qed.
Lemma comma_not_brace t : after_prefix "}" (skip_ws (String "," t)) = None.
Proof. reflexivity. Qed.
Lemma after_comma t : after_prefix "," (skip_ws (String "," t)) = Some t.
Proof. reflexivity. Qed.
Lemma after_colon t : after_prefix ":" (skip_ws (String ":" t)) = Some t.
Proof. reflexivity. Qed.
Lemma skip_space t : skip_ws (String " " t) = skip_ws t.
Proof. reflexivity. Qed.
Lemma skip_quote t : skip_ws (String "034" t) = String "034" t.
Proof. reflexivity. Qed.
Lemma quote_not_brace t : after_prefix "}" (String "034" t) = None.
Proof. reflexivity. Qed.

Lemma skip_ws_json_text x rest :
  skip_ws (json_text x +:+ rest) = json_text x +:+ rest.
Proof.
  destruct (json_text_head x) as (c & t & -> & Hc).
  rewrite string_app_cons. by apply skip_ws_value_start.
Qed.

Lemma skip_ws_items_text x l rest :
  skip_ws (items_text (x :: l) +:+ rest) = items_text (x :: l) +:+ rest.
Proof.
  destruct (items_text_head x l) as (c & t & -> & Hc).
  rewrite string_app_cons. by apply skip_ws_value_start.
Qed.

Lemma scan_items_text l :
  Forall decodes l → l ≠ [] →
  ∀ fuel rest,
    (String.length (items_text l) + 1 < fuel)%nat →
    scan_items fuel (items_text l +:+ "]" +:+ rest) = Some (l, rest).
Proof.
  induction 1 as [|x l Hx Hl IH]; [done|]. intros _ fuel rest Hfuel.
  destruct fuel as [|f]; [lia|]. rewrite scan_items_eq.
  destruct l as [|y l].
  - cbn [items_text] in *. rewrite Hx by (done || lia).
    string_norm. by rewrite after_close_bracket.
  - change (items_text (x :: y :: l))
      with (json_text x +:+ ", " +:+ items_text (y :: l)) in *.
    rewrite !string_app_length in Hfuel. cbn [String.length] in Hfuel.
    rewrite !string_app_assoc. rewrite Hx by (done || lia).
    string_norm. rewrite comma_not_bracket, after_comma, skip_space.
    rewrite skip_ws_items_text.
    pose proof (IH ltac:(done) f rest ltac:(lia)) as Hrec.
    rewrite !string_app_cons, string_app_nil in Hrec. by rewrite Hrec.
Qed.

Lemma members_text_head k x ms :
  ∃ t, members_text ((k, x) :: ms) = String "034" t.
Proof.
  destruct ms as [|[k' y] ms]; cbn [members_text];
    rewrite json_string_app; by eexists.
Qed.

Lemma scan_members_text ms :
  Forall (λ kv, decodes kv.2) ms → ms ≠ [] →
  ∀ fuel rest,
    (String.length (members_text ms) + 1 < fuel)%nat →
    scan_members fuel (members_text ms +:+ "}" +:+ rest) = Some (ms, rest).
Proof.
  induction 1 as [|[k x] ms Hx Hms IH]; [done|]. intros _ fuel rest Hfuel.
  destruct fuel as [|f]; [lia|]. cbn [snd] in Hx.
  destruct ms as [|[k' y] ms].
  - cbn [members_text] in *.
    rewrite !string_app_length in Hfuel. cbn [String.length] in Hfuel.
    rewrite !string_app_assoc, json_string_app, scan_members_eq.
    rewrite scan_string_escape_string. string_norm.
    rewrite after_colon, skip_space, skip_ws_json_text.
    rewrite Hx by (done || lia). by rewrite after_close_brace.
  - change (members_text ((k, x) :: (k', y) :: ms))
      with (json_string k +:+ ": " +:+ json_text x +:+ ", "
            +:+ members_text ((k', y) :: ms)) in *.
    rewrite !string_app_length in Hfuel. cbn [String.length] in Hfuel.
    rewrite !string_app_assoc, json_string_app, scan_members_eq.
    rewrite scan_string_escape_string. string_norm.
    rewrite after_colon, skip_space, skip_ws_json_text.
    rewrite Hx by (done || lia).
    rewrite comma_not_brace, after_comma, skip_space.
    destruct (members_text_head k' y ms) as [t Ht].
    pose proof (IH ltac:(done) f rest ltac:(lia)) as Hrec.
    rewrite !string_app_cons, string_app_nil in Hrec.
    rewrite Ht in Hrec |- *. rewrite string_app_cons in Hrec |- *.
    by rewrite skip_quote, Hrec.
Qed.

(** Every document is decoded from its text. *)
Lemma scan_value_json_text j : decodes j.
Proof.
  induction j as [|b|n|s|l IH|ms IH] using json_nested_ind;
    intros fuel rest Hfuel Hrest; (destruct fuel as [|f]; [lia|]).
  - reflexivity.
  - by destruct b.
  - by apply scan_value_repr_int.
  - apply scan_value_string.
  - rewrite json_text_JArr in *. rewrite !string_app_length in Hfuel.
    cbn [String.length] in Hfuel.
    rewrite !string_app_assoc. string_norm. rewrite scan_value_array.
    destruct l as [|x l]; [reflexivity|].
    rewrite skip_ws_items_text.
    destruct (items_text_head x l) as (c & t & Hct & Hc).
    rewrite Hct at 1. rewrite string_app_cons.
    rewrite after_prefix_close_value_start by done.
    pose proof (scan_items_text (x :: l) IH ltac:(done) f rest ltac:(lia)) as Hrec.
    rewrite !string_app_cons, string_app_nil in Hrec. by rewrite Hrec.
  - rewrite json_text_JObj in *. rewrite !string_app_length in Hfuel.
    cbn [String.length] in Hfuel.
    rewrite !string_app_assoc. string_norm. rewrite scan_value_object.
    destruct ms as [|[k x] ms]; [reflexivity|].
    destruct (members_text_head k x ms) as [t Ht].
    pose proof (scan_members_text ((k, x) :: ms) IH ltac:(done) f rest ltac:(lia))
      as Hrec.
    rewrite !string_app_cons, string_app_nil in Hrec.
    rewrite Ht in Hrec |- *. rewrite string_app_cons in Hrec |- *.
    by rewrite skip_quote, quote_not_brace, Hrec.
Qed.

(** [json.loads] gives back the document whose text [json.dumps] wrote. *)
Lemma json_decode_json_text j : json_decode (json_text j) = Some j.
Proof.
  unfold json_decode.
  pose proof (skip_ws_json_text j "") as Hws.
  pose proof (scan_value_json_text j (Datatypes.S (String.length (json_text j))) ""
                ltac:(lia) I) as Hj.
  assert (∀ s : string, s +:+ "" = s) as Hnil
    by (induction s as [|c s IHs]; [done|]; rewrite string_app_cons; by f_equal).
  rewrite Hnil in Hws, Hj. by rewrite Hws, Hj.
Qed.

(** *** Values that come back unchanged *)

Lemma from_json_JObj ms : from_json (JObj ms) = PDict (dict_of_members ms []).
Proof. reflexivity. Qed.

Lemma json_native_PDict kvs : json_native (PDict kvs) = native_members kvs [].
Proof. reflexivity. Qed.

Lemma json_native_PList l : json_native (PList l) ↔ Forall json_native l.
Proof.
  induction l as [|x l IH]; [by split|].
  change (json_native (PList (x :: l))) with (json_native x ∧ json_native (PList l)).
  rewrite Forall_cons. by rewrite IH.
Qed.

Lemma dict_set_fresh acc k v :
  (∀ x, (PStr k, x) ∉ acc) → dict_set acc k v = acc ++ [(PStr k, v)].
Proof.
  induction acc as [|[k' x'] acc IH]; intros Hk; [done|].
  assert (dict_set acc k v = acc ++ [(PStr k, v)]) as Hrec.
  { apply IH. intros x Hx. apply (Hk x). by right. }
  destruct k'; cbn [dict_set]; try (by rewrite Hrec).
  destruct (String.eqb_spec s k) as [->|Hne]; [|by rewrite Hrec].
  destruct (Hk x'). by left.
Qed.

Lemma items_round_trip l :
  Forall round_trips l → Forall json_native l →
  ∃ js, to_json_items l = inr js ∧ List.map from_json js = l.
Proof.
  induction 1 as [|x l Hx _ IH]; intros Hn; [by exists []|].
  apply Forall_cons in Hn as [Hnx Hnl].
  destruct (Hx Hnx) as (j & Hj & Hfj). destruct (IH Hnl) as (js & Hjs & Hfjs).
  exists (j :: js). cbn [to_json_items]. rewrite Hj, Hjs. split; [done|].
  cbn [List.map]. by rewrite Hfj, Hfjs.
Qed.

Lemma members_round_trip kvs :
  Forall (λ kv, round_trips kv.1 ∧ round_trips kv.2) kvs →
  ∀ seen acc,
    native_members kvs seen →
    (∀ k x, (PStr k, x) ∈ acc → k ∈ seen) →
    ∃ ms, to_json_members kvs = inr ms ∧ dict_of_members ms acc = acc ++ kvs.
Proof.
  induction 1 as [|[k x] kvs [_ Hx] _ IH]; intros seen acc Hn Hacc.
  { exists []. by rewrite app_nil_r. }
  cbn [snd] in Hx. destruct k as [| | |k| | | |]; try done.
  destruct Hn as (Hk & Hnx & Hn).
  destruct (Hx Hnx) as (j & Hj & Hfj).
  destruct (IH (k :: seen) (acc ++ [(PStr k, x)]) Hn) as (ms & Hms & Hd).
  { intros k' x' [Hin|Hin%list_elem_of_singleton]%elem_of_app.
    - right. by eapply Hacc.
    - injection Hin as -> ->. by left. }
  exists ((k, j) :: ms). cbn [to_json_members key_to_json]. rewrite Hj, Hms.
  split; [done|]. cbn [dict_of_members]. rewrite Hfj.
  rewrite dict_set_fresh; [by rewrite Hd, <- app_assoc|].
  intros x' Hin. apply Hk. by eapply Hacc.
Qed.

(** [json.loads(json.dumps(v))] is [v] for a native value. *)
Lemma to_json_from_json v : round_trips v.
Proof.
  induction v as [|b|n|s|l IH|l IH|kvs IH|ty n] using pyval_nested_ind;
    intros Hn; try (by destruct Hn); try (by eexists).
  - apply json_native_PList in Hn.
    destruct (items_round_trip l IH Hn) as (js & Hjs & Hfjs).
    exists (JArr js). rewrite to_json_PList, Hjs. split; [done|].
    cbn [from_json]. by rewrite Hfjs.
  - rewrite json_native_PDict in Hn.
    destruct (members_round_trip kvs IH [] [] Hn) as (ms & Hms & Hd).
    { intros k x Hin. by apply elem_of_nil in Hin. }
    exists (JObj ms). rewrite to_json_PDict, Hms. split; [done|].
    by rewrite from_json_JObj, Hd.
Qed.

Section StructuredValueClaims.
Context {S : Type} `{!Interpreter S}.

(** C7 (amended): for a value of the last expression that is a dict or a
    list and that [json.dumps] accepts, exactly one block is appended for
    it, of type [json], with the text of [json.dumps] as data and empty
    metadata; the display formatter is not consulted and the session is
    left as it was.  Deserializing the data gives the value of the
    document of that text: the original structure when it is built only
    from [None], booleans, integers, strings, lists and dicts with distinct
    string keys. *)
Theorem structured_value_round_trip (s : S) r value t :
  is_dict_or_list value = true →
  json_dumps value = inr t →
  process_result value (s, r)
  = ((s, add_blocks r [{| type := "json"; data := PStr t; metadata := empty_dict |}]),
     inr tt)
  ∧ (∃ j, to_json value = inr j ∧ json_loads t = inr (from_json j))
  ∧ (json_native value → json_loads t = inr value).
Proof.
  intros Hdl Hdumps.
  assert (is_None value = false) as Hn by (by destruct value).
  split.
  { by rewrite process_result_run, Hn, Hdl, Hdumps. }
  unfold json_dumps in Hdumps.
  destruct (to_json value) as [e|j] eqn:Hj; [discriminate|].
  injection Hdumps as <-.
  assert (json_loads (json_text j) = inr (from_json j)) as Hloads
    by (unfold json_loads; by rewrite json_decode_json_text).
  split; [by exists j|].
  intros Hnat. destruct (to_json_from_json value Hnat) as (j' & Hj' & Hfrom).
  rewrite Hj in Hj'. injection Hj' as <-. by rewrite Hloads, Hfrom.
Qed.

End StructuredValueClaims.

Lemma structured_value_round_trip_witness :
  process_result dict_a1 (session_value dict_a1, initial_result)
  = ((session_value dict_a1,
      add_blocks initial_result
        [{| type := "json";
            data := PStr (json_text (JObj [("a", JNum 1)]));
            metadata := empty_dict |}]),
     inr tt)
  ∧ json_loads (json_text (JObj [("a", JNum 1)])) = inr dict_a1.
Proof.
  destruct (structured_value_round_trip (session_value dict_a1) initial_result
              dict_a1 (json_text (JObj [("a", JNum 1)])) eq_refl eq_refl)
    as (Hrun & _ & Hnative).
  split; [exact Hrun|]. apply Hnative.
  repeat split. intros Hin. by apply elem_of_nil in Hin.
Defined.

(** C7, as stated, fails: a dict with an integer key gets its json block
    but the text deserializes to a dict with a string key; and a list that
    holds a set gets no block at all, [json.dumps] raising [TypeError]. *)
Lemma structured_value_round_trip_counterexample :
  (let r := (execute_code (session_value dict_int_key) (PStr "{1: 'a'}")).2 in
   outputs r = [{| type := "json";
                   data := PStr (json_text (JObj [("1", JStr "a")]));
                   metadata := empty_dict |}]
   ∧ json_loads (json_text (JObj [("1", JStr "a")]))
     = inr (PDict [(PStr "1", PStr "a")])
   ∧ PDict [(PStr "1", PStr "a")] ≠ dict_int_key)
  ∧ (let r := (execute_code (session_value list_with_set) (PStr "[{1, 2}]")).2 in
     outputs r = [] ∧ (err_type <$> error r) = Some "TypeError").
Proof. repeat split. discriminate. Qed.

(** * Further properties *)

(** ** The order and the tags of the blocks *)

Lemma types_block_for (d md : gmap string pyval) mime ty :
  map type (block_for d md mime ty) `sublist_of` [ty].
Proof.
  unfold block_for. destruct (d !! mime); [done|]. apply sublist_nil_l.
Qed.

Lemma types_json_block_for (d md : gmap string pyval) jb :
  json_block_for d md = inr jb → map type jb `sublist_of` ["json"].
Proof.
  unfold json_block_for. destruct (d !! "application/json") as [x|].
  - destruct (json_dumps x); [done|]. by intros [= <-].
  - intros [= <-]. apply sublist_nil_l.
Qed.

Lemma types_before_json (d md : gmap string pyval) :
  map type (before_json d md) `sublist_of` ["image"; "jpeg"; "svg"; "html"].
Proof.
  unfold before_json. rewrite !map_app.
  change ["image"; "jpeg"; "svg"; "html"]
    with (["image"] ++ ["jpeg"] ++ ["svg"] ++ ["html"]).
  repeat apply sublist_app; apply types_block_for.
Qed.

Lemma types_after_json (d md : gmap string pyval) :
  map type (after_json d md) `sublist_of` ["latex"; "markdown"; "javascript"].
Proof.
  unfold after_json. rewrite !map_app.
  change ["latex"; "markdown"; "javascript"]
    with (["latex"] ++ ["markdown"] ++ ["javascript"]).
  repeat apply sublist_app; apply types_block_for.
Qed.

Lemma types_in_order (d md : gmap string pyval) jb (b : bool) :
  map type jb `sublist_of` ["json"] →
  map type (before_json d md ++ jb ++ after_json d md
            ++ (if b then block_for d md "text/plain" "text" else []))
  `sublist_of` precedence.
Proof.
  intros Hjb. rewrite !map_app.
  change precedence
    with (["image"; "jpeg"; "svg"; "html"] ++ ["json"]
          ++ ["latex"; "markdown"; "javascript"] ++ ["text"]).
  repeat apply sublist_app;
    auto using types_before_json, types_after_json.
  destruct b; [apply types_block_for|apply sublist_nil_l].
Qed.

Lemma types_display_blocks output :
  map type (display_blocks output).1 `sublist_of` precedence.
Proof.
  unfold display_blocks. destruct (out_data output) as [d|]; [|apply sublist_nil_l].
  destruct (json_block_for d _) as [e|jb] eqn:Hjb; cbn [fst].
  - etrans; [apply types_before_json|].
    change precedence
      with (["image"; "jpeg"; "svg"; "html"]
            ++ ["json"; "latex"; "markdown"; "javascript"; "text"]).
    by apply sublist_inserts_r.
  - apply types_in_order. by eapply types_json_block_for.
Qed.

Lemma types_formatted_blocks hb (fd md : gmap string pyval) :
  map type (formatted_blocks hb fd md).1 `sublist_of` precedence.
Proof.
  unfold formatted_blocks.
  destruct (json_block_for fd md) as [e|jb] eqn:Hjb; cbn [fst].
  - etrans; [apply types_before_json|].
    change precedence
      with (["image"; "jpeg"; "svg"; "html"]
            ++ ["json"; "latex"; "markdown"; "javascript"; "text"]).
    by apply sublist_inserts_r.
  - apply types_in_order. by eapply types_json_block_for.
Qed.

Lemma types_value_blocks {S : Type} `{!Interpreter S} (s : S) hb value :
  map type (value_blocks s hb value) `sublist_of` precedence.
Proof.
  unfold value_blocks.
  destruct (is_None value); [apply sublist_nil_l|].
  destruct (is_dict_or_list value).
  - destruct (json_dumps value); [apply sublist_nil_l|].
    change precedence
      with (["image"; "jpeg"; "svg"; "html"] ++ ["json"]
            ++ ["latex"; "markdown"; "javascript"; "text"]).
    apply sublist_inserts_l, sublist_inserts_r. done.
  - destruct (display_format s value) as [s' [e|[fd md]]]; [apply sublist_nil_l|].
    apply types_formatted_blocks.
Qed.

Section OrderProperties.
Context {S : Type} `{!Interpreter S}.

(** X1: the blocks appended for one captured display call carry their tags
    in the order of precedence, each tag at most once, whatever the payload
    and whether or not [json.dumps] raises on it. *)
Theorem display_blocks_in_precedence_order (s : S) r output :
  map type (appended_by (process_display_output output) s r)
  `sublist_of` precedence.
Proof.
  erewrite appended_by_add_blocks by apply process_display_output_run.
  apply types_display_blocks.
Qed.

(** X2: the blocks appended for the value of the last expression carry
    their tags in the order of precedence, each tag at most once; this holds
    for the dict/list bypass, for a rendered value and when the formatter or
    [json.dumps] raises. *)
Theorem value_blocks_in_precedence_order (s : S) r value :
  map type (appended_by (process_result value) s r) `sublist_of` precedence.
Proof. rewrite appended_by_process_result. apply types_value_blocks. Qed.

End OrderProperties.

(** ** The result of [execute_code] on every path *)

Lemma types_all_display_blocks outs :
  Forall (λ b, type b ∈ precedence) (all_display_blocks outs).1.
Proof.
  induction outs as [|o outs IH]; [constructor|]. cbn [all_display_blocks].
  assert (Forall (λ b, type b ∈ precedence) (display_blocks o).1) as Ho.
  { apply Forall_forall. intros b Hb.
    eapply elem_of_sublist; [|apply types_display_blocks].
    by apply list_elem_of_fmap_2. }
  destruct (display_blocks o) as [bs [e|]]; [done|].
  destruct (all_display_blocks outs) as [bs' e']. cbn [fst] in *.
  by apply Forall_app.
Qed.

Section ResultProperties.
Context {S : Type} `{!Interpreter S}.

(** The three ways in which [execute_code] ends. *)
Lemma execute_code_paths (s : S) code :
  match run_cell s code with
  | (s1, inl e) =>
      execute_code s code = (s1, set_error (error_of_internal e) initial_result)
      ∧ (execute_body code (s, initial_result)).2 = inl e
  | (s1, inr (captured, exec_result)) =>
      match all_display_blocks (cap_outputs captured) with
      | (db, Some e) =>
          execute_code s code
          = (s1, set_error (error_of_internal e)
                   (add_blocks (captured_result captured exec_result) db))
          ∧ (execute_body code (s, initial_result)).2 = inl e
      | (db, None) =>
          let '(s2, figs) := capture_matplotlib_figures s1 in
          ∃ err,
            (execute_code s code).2
            = {| stdout := cap_stdout captured;
                 stderr := cap_stderr captured;
                 error := err;
                 outputs := db ++ map figure_block figs
                            ++ value_blocks s2 (existsb is_html db)
                                 (result exec_result) |}
            ∧ match (execute_body code (s, initial_result)).2 with
              | inl e => err = Some (error_of_internal e)
              | inr _ => err = error_of_exec <$> error_in_exec exec_result
              end
      end
  end.
Proof.
  destruct (run_cell s code) as [s1 [e|[captured exec_result]]] eqn:Hrun.
  - unfold execute_code. by rewrite (execute_body_run_raise _ _ _ _ Hrun).
  - destruct (all_display_blocks (cap_outputs captured)) as [db [e|]] eqn:Hdb.
    + unfold execute_code. by rewrite (execute_body_run _ _ _ _ _ Hrun), Hdb.
    + destruct (capture_matplotlib_figures s1) as [s2 figs] eqn:Hfig.
      by apply (execute_code_result _ _ _ _ _ _ _ _ Hrun Hdb Hfig).
Qed.

(** X3: every block of every result has one of the nine tags of the
    vocabulary, on every path through [execute_code], the ones that end in
    the [except] clause included. *)
Theorem outputs_tags_in_vocabulary (s : S) code :
  Forall (λ b, type b ∈ precedence) (outputs (execute_code s code).2).
Proof.
  pose proof (execute_code_paths s code) as Hp.
  destruct (run_cell s code) as [s1 [e|[captured exec_result]]].
  { destruct Hp as [-> _]. constructor. }
  pose proof (types_all_display_blocks (cap_outputs captured)) as Hdb.
  destruct (all_display_blocks (cap_outputs captured)) as [db [e|]]; cbn [fst] in Hdb.
  { destruct Hp as [-> _]. done. }
  destruct (capture_matplotlib_figures s1) as [s2 figs].
  destruct Hp as (err & -> & _). cbn [outputs].
  repeat apply Forall_app_2; [done| |].
  - apply Forall_forall. intros b (f & -> & _)%list_elem_of_fmap.
    cbn. unfold precedence. set_solver.
  - apply Forall_forall. intros b Hb.
    eapply elem_of_sublist; [|apply (types_value_blocks s2)].
    by apply list_elem_of_fmap_2.
Qed.

(** X4: the captured text is never lost: once the cell has been run, the
    result carries the captured [stdout] and [stderr] on every path, also
    when the code raised and when the formatting itself raised; if running
    the cell raised, both are empty and there is no output. *)
Theorem captured_text_always_kept (s : S) code :
  let r := (execute_code s code).2 in
  match (run_cell s code).2 with
  | inr (captured, _) =>
      stdout r = cap_stdout captured ∧ stderr r = cap_stderr captured
  | inl _ => stdout r = "" ∧ stderr r = "" ∧ outputs r = []
  end.
Proof.
  intros r. subst r. pose proof (execute_code_paths s code) as Hp.
  destruct (run_cell s code) as [s1 [e|[captured exec_result]]]; cbn [snd].
  { by destruct Hp as [-> _]. }
  destruct (all_display_blocks (cap_outputs captured)) as [db [e|]].
  { by destruct Hp as [-> _]. }
  destruct (capture_matplotlib_figures s1) as [s2 figs].
  by destruct Hp as (err & -> & _).
Qed.


End ResultProperties.

(** ** The display loop *)

Lemma all_display_blocks_no_raise outs :
  (all_display_blocks outs).2 = None →
  (all_display_blocks outs).1 = concat (map (λ o, (display_blocks o).1) outs).
Proof.
  induction outs as [|o outs IH]; [done|]. cbn [all_display_blocks map concat].
  destruct (display_blocks o) as [bs [e|]]; [done|].
  destruct (all_display_blocks outs) as [bs' e']. cbn [fst snd] in *.
  intros He. by rewrite IH.
Qed.

Lemma block_for_Some (d md : gmap string pyval) mime ty x :
  d !! mime = Some x →
  block_for d md mime ty = [{| type := ty; data := x; metadata := metadata_get md mime |}].
Proof. intros Hd. unfold block_for. by rewrite Hd. Qed.

Section DisplayProperties.
Context {S : Type} `{!Interpreter S}.

(** X6: when the display loop does not raise, the blocks it appends are
    the blocks of the first captured display call, then those of the second,
    and so on: the calls are handled in the order in which they were made
    and the blocks of two calls never interleave. *)
Theorem display_loop_concatenates (s : S) r outs :
  (for_each process_display_output outs (s, r)).2 = inr tt →
  appended_by (for_each process_display_output outs) s r
  = concat (map (λ o, appended_by (process_display_output o) s r) outs).
Proof.
  intros Hloop. rewrite for_each_display_run in Hloop. cbn [snd] in Hloop.
  rewrite appended_by_display_loop.
  rewrite all_display_blocks_no_raise
    by (by destruct (all_display_blocks outs).2).
  f_equal. apply map_ext. intros o.
  symmetry. eapply appended_by_add_blocks, process_display_output_run.
Qed.

(** X7: a captured display call loses no known representation: when
    [json.dumps] accepts its JSON data (or it has none), every MIME type of
    the table that the data has gets a block with the tag of the table and
    the metadata of that type (an empty dict when there is none); the data
    of the block is the data of the payload, unchanged, except for
    [application/json], where it is the text of [json.dumps]. *)
Theorem display_keeps_every_known_kind (s : S) r output d mime ty x :
  out_data output = Some d →
  (process_display_output output (s, r)).2 = inr tt →
  (mime, ty) ∈ kind_table →
  d !! mime = Some x →
  ∃ b, b ∈ appended_by (process_display_output output) s r
       ∧ type b = ty
       ∧ metadata b = metadata_get (default ∅ (out_metadata output)) mime
       ∧ (if String.eqb mime "application/json"
          then ∃ t, json_dumps x = inr t ∧ data b = PStr t
          else data b = x).
Proof.
  intros Hd Hrun Hin Hx.
  rewrite process_display_output_run in Hrun. cbn [snd] in Hrun.
  erewrite appended_by_add_blocks by apply process_display_output_run.
  unfold display_blocks in *. rewrite Hd in *.
  set (md := default ∅ (out_metadata output)) in *.
  destruct (json_block_for d md) as [e|jb] eqn:Hjb; [discriminate Hrun|].
  cbn [fst]. unfold before_json, after_json.
  unfold kind_table in Hin.
  repeat (apply elem_of_cons in Hin as [[= -> ->]|Hin]);
    [..|by apply elem_of_nil in Hin];
    try (lazymatch goal with
         | Hm : d !! ?m = Some x |- context [type _ = ?t] =>
             exists {| type := t; data := x; metadata := metadata_get md m |};
             split; [rewrite (block_for_Some d md m t x Hm); set_solver
                    |by repeat split]
         end).
  unfold json_block_for in Hjb. rewrite Hx in Hjb.
  destruct (json_dumps x) as [e|t] eqn:Ht; [discriminate|]. injection Hjb as <-.
  exists {| type := "json"; data := PStr t;
            metadata := metadata_get md "application/json" |}.
  split; [set_solver|].
  repeat split. cbn. by exists t.
Qed.

End DisplayProperties.

(** ** [capture_matplotlib_figures] *)

Section FigureProperties.
Context {S : Type} `{!Interpreter S}.



End FigureProperties.

(** ** [base64.b64encode] and the JSON text of a figure *)

Lemma b64_triples_ind (P : string → Prop) :
  P "" →
  (∀ a, P (String a "")) →
  (∀ a b, P (String a (String b ""))) →
  (∀ a b c s, P s → P (String a (String b (String c s)))) →
  ∀ s, P s.
Proof.
  intros H0 H1 H2 H3. fix IH 1. intros s.
  destruct s as [|a [|b [|c s]]]; [done..|]. apply H3, IH.
Qed.

Lemma escape_b64_char n : escape_char (b64_char n) = String (b64_char n) "".
Proof.
  destruct (N.lt_ge_cases n 64) as [Hlt|Hge].
  - rewrite <- (N2Nat.id n). assert (N.to_nat n < 64)%nat as Hk by lia.
    generalize dependent (N.to_nat n). intros k Hk.
    do 64 (destruct k as [|k]; [reflexivity|]). lia.
  - assert (b64_char n = "/"%char) as ->; [|reflexivity].
    unfold b64_char.
    destruct (N.ltb_spec n 26); [lia|]. destruct (N.ltb_spec n 52); [lia|].
    destruct (N.ltb_spec n 62); [lia|]. destruct (N.eqb_spec n 62); [lia|done].
Qed.

(** X9: the text of [b64encode] has four characters for every three
    bytes, rounded up, and consists of characters that [json.dumps] writes
    as they are: the data of a figure block crosses the JSON line without
    any escape. *)
Theorem b64encode_plain_text (bs : string) :
  String.length (b64encode bs) = (4 * ((String.length bs + 2) / 3))%nat
  ∧ json_text (JStr (b64encode bs)) = quote +:+ b64encode bs +:+ quote.
Proof.
  split.
  - induction bs as [|a|a b|a b c s IH] using b64_triples_ind; try reflexivity.
    cbn [b64encode String.length]. rewrite IH.
    replace (Datatypes.S (Datatypes.S (Datatypes.S (String.length s))) + 2)%nat
      with (String.length s + 2 + 1 * 3)%nat by lia.
    rewrite Nat.div_add by lia. lia.
  - cbn [json_text]. unfold json_string. do 2 f_equal.
    induction bs as [|a|a b|a b c s IH] using b64_triples_ind;
      cbn [b64encode escape_string];
      rewrite ?escape_b64_char, ?string_app_cons, ?string_app_nil, ?IH;
      reflexivity.
Qed.

(** ** The loop as a whole *)

Section LoopProperties.
Context {S : Type} `{!Interpreter S}.
Variable loads : string → exn + pyval.

(** An iteration prints a response unless [KeyboardInterrupt] leaves the
    decoder. *)
Lemma iteration_responds (s : S) line :
  (∀ e, loads (strip line) = inl e → exn_class e ≠ "KeyboardInterrupt") →
  ∃ s' response, iteration loads s line = (s', Some response).
Proof.
  intros Hki. destruct (loads (strip line)) as [e|request] eqn:Hl.
  - unfold iteration, handle_line. rewrite Hl.
    destruct (String.eqb (exn_class e) "JSONDecodeError"); [by do 2 eexists|].
    destruct (String.eqb_spec (exn_class e) "KeyboardInterrupt") as [Hc|_];
      [by destruct (Hki e)|by do 2 eexists].
  - destruct request as [| | | | | |items|];
      try (rewrite (iteration_not_dict _ _ _ _ Hl) by done; by do 2 eexists).
    rewrite (iteration_dict _ _ _ _ Hl).
    destruct (execute_code s _) as [s' r]. by do 2 eexists.
Qed.

(** X10: the loop answers every line: when the input holds lines only and
    no interrupt comes out of the decoder, the loop prints exactly one
    document per line, whatever the lines are (malformed, not an object,
    code that raises, results that cannot be serialized), and ends only at
    the end of the input. *)
Theorem one_response_per_line (s : S) stdin :
  no_interrupt_from_decoder loads →
  Forall is_request_line stdin →
  length (main loads s stdin).2 = length stdin.
Proof.
  intros Hki Hlines. revert s.
  induction Hlines as [|ev stdin Hev _ IH]; intros s; [done|].
  destruct ev as [line|]; [|done]. cbn [main].
  destruct (String.eqb_spec line ""); [done|].
  destruct (iteration_responds s line) as (s' & response & ->); [by eauto|].
  specialize (IH s'). destruct (main loads s' stdin) as [s'' out]. cbn in *.
  by rewrite IH.
Qed.

(** X11: the loop is sequential: for an input that starts with lines
    (under the same conditions), reading them and then the rest is reading
    the rest from the session that the lines left, and the documents come
    out in the order of the lines. *)
Theorem main_app (s : S) stdin rest :
  no_interrupt_from_decoder loads →
  Forall is_request_line stdin →
  main loads s (stdin ++ rest)
  = ((main loads (main loads s stdin).1 rest).1,
     (main loads s stdin).2 ++ (main loads (main loads s stdin).1 rest).2).
Proof.
  intros Hki Hlines. revert s.
  induction Hlines as [|ev stdin Hev _ IH]; intros s.
  { cbn. by destruct (main loads s rest). }
  destruct ev as [line|]; [|done]. cbn [main app].
  destruct (String.eqb_spec line ""); [done|].
  destruct (iteration_responds s line) as (s' & response & ->); [by eauto|].
  rewrite (IH s'). destruct (main loads s' stdin) as [s'' out]. cbn [fst snd].
  by destruct (main loads s'' rest).
Qed.

End LoopProperties.

(** ** The documents that the loop prints *)

Lemma to_json_items_app l1 l2 :
  to_json_items (l1 ++ l2)
  = match to_json_items l1 with
    | inl e => inl e
    | inr js1 => match to_json_items l2 with
                 | inl e => inl e
                 | inr js2 => inr (js1 ++ js2)
                 end
    end.
Proof.
  induction l1 as [|x l1 IH]; cbn [app to_json_items].
  - by destruct (to_json_items l2).
  - destruct (to_json x); [done|]. rewrite IH.
    destruct (to_json_items l1); [done|]. by destruct (to_json_items l2).
Qed.

Lemma to_json_items_serializable l :
  (∃ js, to_json_items l = inr js) ↔ Forall serializable l.
Proof.
  induction l as [|x l IH]; [split; [constructor|by eexists]|].
  cbn [to_json_items]. rewrite Forall_cons, <- IH. unfold serializable.
  destruct (to_json x) as [e|j]; [split; [by intros [? ?]|by intros [[? ?] _]]|].
  destruct (to_json_items l) as [e|js].
  - split; [by intros [? ?]|by intros [_ [? ?]]].
  - split; [intros _|]; eauto.
Qed.

Lemma block_to_py_serializable b :
  serializable (block_to_py b) ↔ serializable (data b) ∧ serializable (metadata b).
Proof.
  unfold serializable, block_to_py.
  rewrite to_json_PDict, !to_json_members_cons. cbn [key_to_json to_json_members].
  change (to_json (PStr (type b))) with (inr (B:=json) (A:=exn) (JStr (type b))).
  cbn iota.
  destruct (to_json (data b)) as [e|jd]; [split; [by intros [? ?]|by intros [[? ?] _]]|].
  destruct (to_json (metadata b)) as [e|jm].
  - split; [by intros [? ?]|by intros [_ [? ?]]].
  - split; [intros _|]; eauto.
Qed.

(** X12: the result of a request is printed exactly when [json.dumps]
    accepts it, that is when the data and the metadata of every block and
    the echoed [executionId] are serializable; otherwise the document
    printed for the request is the internal error report, and the result is
    not sent. *)
Theorem result_sent_iff_serializable {S : Type} `{!Interpreter S}
    (loads : string → exn + pyval) (s : S) line items :
  loads (strip line) = inr (PDict items) →
  let r := (execute_code s (dict_get items "code" (PStr ""))).2 in
  let execution_id := dict_get items "executionId" PNone in
  ∃ response,
    (iteration loads s line).2 = Some response
    ∧ (json_keys response = result_keys
       ↔ serializable execution_id
         ∧ Forall (λ b, serializable (data b) ∧ serializable (metadata b))
             (outputs r))
    ∧ (json_keys response = result_keys ∨ json_keys response = error_keys).
Proof.
  intros Hl r execution_id. rewrite (iteration_dict _ _ _ _ Hl).
  subst r. destruct (execute_code s _) as [s' r]. cbn [snd].
  eexists. split; [reflexivity|].
  assert ((∃ j, to_json (response_to_py r execution_id
                           (bool_decide (error r = None))) = inr j)
          ↔ serializable execution_id
            ∧ Forall (λ b, serializable (data b) ∧ serializable (metadata b))
                (outputs r)) as Hser.
  { unfold response_to_py.
    rewrite to_json_PDict, !to_json_members_cons, to_json_PList.
    assert (to_json (error_to_py (error r)) = inr (error_to_json (error r))) as ->
      by (by destruct (error r)).
    cbn [key_to_json to_json to_json_members].
    pose proof (to_json_items_serializable (map block_to_py (outputs r))) as Hit.
    rewrite Forall_fmap in Hit.
    assert (Forall (serializable ∘ block_to_py) (outputs r)
            ↔ Forall (λ b, serializable (data b) ∧ serializable (metadata b))
                (outputs r)) as Hbl
      by (apply Forall_iff; intros b; apply block_to_py_serializable).
    rewrite Hbl in Hit.
    rewrite <- Hit. unfold serializable.
    destruct (to_json_items _) as [e|js].
    - split; [by intros [? ?]|by intros [_ [? ?]]].
    - destruct (to_json execution_id) as [e|jid].
      + split; [by intros [? ?]|by intros [[? ?] _]].
      + split; [intros _|]; eauto. }
  destruct (to_json _) as [e|j] eqn:Hj.
  - split; [|by right]. rewrite <- Hser. split; [done|by intros [? ?]].
  - apply response_to_json in Hj as (js & jid & Hjeq).
    split; [|left; by rewrite Hjeq].
    rewrite <- Hser. split; [by eexists|by rewrite Hjeq].
Qed.

Section ResponseShapes.
Context {S : Type} `{!Interpreter S}.
Variable loads : string → exn + pyval.

(** The document of one iteration has the keys of a result, or it is one
    of the two error reports. *)
Lemma iteration_shape (s : S) line response :
  (iteration loads s line).2 = Some response →
  json_keys response = result_keys
  ∨ (∃ e, response = protocol_error_response e)
  ∨ (∃ e, response = internal_error_response e).
Proof.
  unfold iteration, handle_line.
  destruct (loads (strip line)) as [e|request].
  { destruct (String.eqb (exn_class e) "JSONDecodeError");
      [intros [= <-]; eauto|].
    destruct (String.eqb (exn_class e) "KeyboardInterrupt");
      [done|intros [= <-]; eauto]. }
  destruct (request_get request "code" (PStr "")) as [e|code] eqn:Hcode.
  { destruct request; try discriminate Hcode; cbn in Hcode;
      injection Hcode as <-; cbn; intros [= <-]; eauto. }
  destruct (execute_code s code) as [s' r].
  destruct (request_get request "executionId" PNone) as [e|eid] eqn:Hid.
  { destruct request; try discriminate Hid; discriminate Hcode. }
  cbn [snd]. destruct (to_json _) as [e|j] eqn:Hj.
  - rewrite (to_json_class _ _ Hj). cbn. intros [= <-]. eauto.
  - apply response_to_json in Hj as (js & jid & ->). intros [= <-]. by left.
Qed.

(** X13: every document that the loop prints is an object with one of two
    fixed lists of keys: the six keys of a result, or [error] and [status]
    with the status [error] and an error of type [ProtocolError] or
    [InternalError].  In particular no response can be taken for the
    readiness signal. *)
Theorem responses_have_fixed_keys (s : S) stdin :
  Forall (λ response,
            (json_keys response = result_keys
             ∨ (json_keys response = error_keys
                ∧ json_get response "status" = Some (JStr "error")
                ∧ ((json_get response "error" ≫= λ e, json_get e "type")
                   = Some (JStr "ProtocolError")
                   ∨ (json_get response "error" ≫= λ e, json_get e "type")
                     = Some (JStr "InternalError"))))
            ∧ is_ready response = false)
    (main loads s stdin).2.
Proof.
  revert s. induction stdin as [|ev stdin IH]; intros s; [constructor|].
  destruct ev as [line|]; [|constructor]. cbn [main].
  destruct (String.eqb line ""); [constructor|].
  pose proof (iteration_shape s line) as Hshape.
  destruct (iteration loads s line) as [s' [response|]]; [|constructor].
  specialize (IH s'). destruct (main loads s' stdin) as [s'' out]. cbn [snd] in *.
  constructor; [|done].
  destruct (Hshape response eq_refl) as [Hk|[[e ->]|[e ->]]].
  - split; [by left|]. destruct response as [| | | |l|ms]; try done.
    cbn in Hk. unfold result_keys in Hk.
    destruct ms as [|[k1 v1] [|[k2 v2] [|[k3 v3] [|[k4 v4] [|[k5 v5] [|[k6 v6] [|]]]]]]];
      try discriminate Hk.
    cbn in Hk. injection Hk as -> -> -> -> -> ->. reflexivity.
  - split; [right; repeat split; by left|reflexivity].
  - split; [right; repeat split; by right|reflexivity].
Qed.

End ResponseShapes.

(** ** Decoding and encoding again *)

Lemma distinct_names_JObj ms : distinct_names (JObj ms) = distinct_members ms [].
Proof. reflexivity. Qed.

Lemma distinct_names_JArr l : distinct_names (JArr l) ↔ Forall distinct_names l.
Proof.
  induction l as [|x l IH]; [by split|].
  change (distinct_names (JArr (x :: l)))
    with (distinct_names x ∧ distinct_names (JArr l)).
  rewrite Forall_cons. by rewrite IH.
Qed.

Lemma dict_set_str_keyed acc k v :
  str_keyed acc → serializable v → str_keyed (dict_set acc k v).
Proof.
  intros Hacc Hv. induction Hacc as [|[k' x] acc [[k0 Hk] Hx] Hacc IH].
  { constructor; [|constructor]. split; [by eexists|done]. }
  cbn in Hk. subst k'. cbn [dict_set].
  destruct (String.eqb k0 k).
  - constructor; [|done]. split; [by eexists|done].
  - constructor; [|done]. split; [by eexists|done].
Qed.

Lemma dict_of_members_str_keyed ms acc :
  Forall (λ kv, serializable (from_json kv.2)) ms →
  str_keyed acc → str_keyed (dict_of_members ms acc).
Proof.
  intros Hms. revert acc. induction Hms as [|[k x] ms Hx _ IH]; intros acc Hacc;
    [done|].
  cbn [dict_of_members]. apply IH. by apply dict_set_str_keyed.
Qed.

Lemma to_json_members_str_keyed kvs :
  str_keyed kvs → ∃ ms, to_json_members kvs = inr ms.
Proof.
  induction 1 as [|[k x] kvs [[k0 Hk] [j Hj]] _ [ms Hms]]; [by eexists|].
  cbn in Hk, Hj. subst k. cbn [to_json_members key_to_json].
  rewrite Hj, Hms. by eexists.
Qed.

Lemma dict_of_members_distinct ms seen acc :
  distinct_members ms seen →
  (∀ k x, (PStr k, x) ∈ acc → k ∈ seen) →
  dict_of_members ms acc = acc ++ map (λ kv, (PStr kv.1, from_json kv.2)) ms.
Proof.
  revert seen acc. induction ms as [|[k x] ms IH]; intros seen acc Hd Hacc.
  { by rewrite app_nil_r. }
  destruct Hd as (Hk & _ & Hd). cbn [dict_of_members map fst snd].
  rewrite dict_set_fresh by (intros x' Hin; apply Hk; by eapply Hacc).
  rewrite (IH (k :: seen)); [by rewrite <- app_assoc|done|].
  intros k' x' [Hin|Hin%list_elem_of_singleton]%elem_of_app.
  - right. by eapply Hacc.
  - injection Hin as -> ->. by left.
Qed.

Lemma distinct_members_values ms seen :
  distinct_members ms seen → Forall (λ kv, distinct_names kv.2) ms.
Proof.
  revert seen. induction ms as [|[k x] ms IH]; intros seen Hd; [constructor|].
  destruct Hd as (_ & Hx & Hd). constructor; [done|]. by eapply IH.
Qed.

(** What [json.loads] gives, [json.dumps] accepts, and the document is the
    same when no object repeats a name. *)
Lemma from_json_to_json j : encodes_back j.
Proof.
  induction j as [|b|n|s|l IH|ms IH] using json_nested_ind;
    try (split; [by eexists|done]).
  - assert (∃ js, to_json_items (List.map from_json l) = inr js) as [js Hjs].
    { induction IH as [|x l [[j Hj] _] _ [js Hjs]]; [by eexists|].
      cbn [List.map to_json_items]. rewrite Hj, Hjs. by eexists. }
    split.
    + exists (JArr js). cbn [from_json]. by rewrite to_json_PList, Hjs.
    + intros Hd%distinct_names_JArr. cbn [from_json]. rewrite to_json_PList.
      assert (to_json_items (List.map from_json l) = inr l) as ->; [|done].
      clear js Hjs. induction IH as [|x l [_ Hx] _ IHl]; [done|].
      apply Forall_cons in Hd as [Hdx Hdl].
      cbn [List.map to_json_items]. by rewrite (Hx Hdx), (IHl Hdl).
  - split.
    + rewrite from_json_JObj.
      destruct (to_json_members_str_keyed (dict_of_members ms [])) as [ms' Hms'].
      { apply dict_of_members_str_keyed; [|constructor].
        eapply Forall_impl; [exact IH|]. by intros kv [? _]. }
      exists (JObj ms'). by rewrite to_json_PDict, Hms'.
    + rewrite distinct_names_JObj. intros Hd.
      rewrite from_json_JObj, to_json_PDict.
      rewrite (dict_of_members_distinct ms [] [] Hd)
        by (intros k x Hin; by apply elem_of_nil in Hin).
      rewrite app_nil_l.
      assert (to_json_members (map (λ kv, (PStr kv.1, from_json kv.2)) ms) = inr ms)
        as ->; [|done].
      apply distinct_members_values in Hd.
      induction IH as [|[k x] ms [_ Hx] _ IHms]; [done|].
      apply Forall_cons in Hd as [Hdx Hdms]. cbn [fst snd] in *.
      cbn [map fst snd to_json_members key_to_json].
      by rewrite (Hx Hdx), (IHms Hdms).
Qed.

Lemma response_to_json_id r execution_id success j :
  to_json (response_to_py r execution_id success) = inr j →
  ∃ jid, to_json execution_id = inr jid ∧ json_get j "executionId" = Some jid.
Proof.
  unfold response_to_py.
  rewrite to_json_PDict, !to_json_members_cons, to_json_PList.
  assert (to_json (error_to_py (error r)) = inr (error_to_json (error r))) as ->
    by (by destruct (error r)).
  cbn [key_to_json to_json to_json_members].
  destruct (to_json_items _) as [?|js]; [discriminate|].
  destruct (to_json execution_id) as [?|jid]; [discriminate|].
  intros [= <-]. by exists jid.
Qed.

(** X14: the [executionId] of a request is echoed: when the request is an
    object decoded from JSON whose [executionId] is the document [jid], in
    which no object repeats a name, every response that carries the result
    has [jid] as its [executionId]; a request without the key has [null]
    there. *)
Theorem execution_id_echoed {S : Type} `{!Interpreter S}
    (loads : string → exn + pyval) (s : S) line items jid response :
  loads (strip line) = inr (PDict items) →
  dict_get items "executionId" PNone = from_json jid →
  distinct_names jid →
  (iteration loads s line).2 = Some response →
  json_keys response = result_keys →
  json_get response "executionId" = Some jid.
Proof.
  intros Hl Hid Hd. rewrite (iteration_dict _ _ _ _ Hl).
  destruct (execute_code s _) as [s' r]. cbn [snd]. rewrite Hid.
  destruct (to_json _) as [e|j] eqn:Hj; intros [= <-]; [discriminate|].
  intros _. apply response_to_json_id in Hj as (jid' & Hjid & ->).
  destruct (from_json_to_json jid) as [_ Hback].
  rewrite (Hback Hd) in Hjid. by injection Hjid as <-.
Qed.

(** ** Lines that are not requests *)

Lemma lstrip_all_space s : all_space s = true → lstrip s = "".
Proof.
  induction s as [|c s IH]; [done|]. cbn [all_space lstrip].
  intros [Hc Hs]%andb_true_iff. rewrite Hc. by apply IH.
Qed.

Lemma json_loads_class text e :
  json_loads text = inl e → exn_class e = "JSONDecodeError".
Proof. unfold json_loads. destruct (json_decode text); [done|]. by intros [= <-]. Qed.

(** X15: a line of white space only is not the end of the input: the
    loop, with the decoder of the model, answers it with the protocol
    error for an empty text and goes on with the same session. *)
Theorem blank_line_protocol_error {S : Type} `{!Interpreter S} (s : S) line rest :
  line ≠ "" →
  all_space line = true →
  main json_loads s (Line line :: rest)
  = ((main json_loads s rest).1,
     protocol_error_response
       (JSONDecodeError "Expecting value: line 1 column 1 (char 0)")
     :: (main json_loads s rest).2).
Proof.
  intros Hne Hsp. cbn [main]. destruct (String.eqb_spec line ""); [done|].
  unfold iteration, handle_line, strip. rewrite (lstrip_all_space _ Hsp).
  cbn. by destruct (main json_loads s rest).
Qed.

(** X16: a line that is valid JSON but not an object (a list, a number, a
    string) runs no code: [request.get] raises [AttributeError], the loop
    prints the internal error report, which has neither [executionId] nor
    [success], keeps the session and goes on. *)
Theorem non_object_request_internal_error {S : Type} `{!Interpreter S}
    (loads : string → exn + pyval) (s : S) line request rest :
  line ≠ "" →
  loads (strip line) = inr request →
  (∀ items, request ≠ PDict items) →
  let response :=
    internal_error_response
      (AttributeError ("'" +:+ class_name request +:+ "' object has no attribute 'get'")) in
  main loads s (Line line :: rest)
  = ((main loads s rest).1, response :: (main loads s rest).2)
  ∧ (json_get response "error" ≫= λ e, json_get e "type") = Some (JStr "InternalError")
  ∧ json_get response "executionId" = None
  ∧ json_get response "success" = None.
Proof.
  intros Hne Hl Hnd response. split; [|done].
  cbn [main]. destruct (String.eqb_spec line ""); [done|].
  rewrite (iteration_not_dict _ _ _ _ Hl Hnd).
  by destruct (main loads s rest).
Qed.

(** ** The script as a whole *)

Lemma main_no_ready {S : Type} `{!Interpreter S}
    (loads : string → exn + pyval) (s : S) stdin :
  List.filter is_ready (main loads s stdin).2 = [].
Proof.
  revert s. induction stdin as [|ev stdin IH]; intros s; [done|].
  destruct ev as [line|]; [|done]. cbn [main].
  destruct (String.eqb line ""); [done|].
  pose proof (iteration_shape loads s line) as Hshape.
  destruct (iteration loads s line) as [s' [response|]]; [|done].
  specialize (IH s'). destruct (main loads s' stdin) as [s'' out]. cbn [snd] in *.
  cbn [List.filter]. rewrite IH.
  destruct (Hshape response eq_refl) as [Hk|[[e ->]|[e ->]]]; [|done..].
  destruct response as [| | | |l|ms]; try done.
  cbn in Hk. unfold result_keys in Hk.
  destruct ms as [|[k1 v1] [|[k2 v2] [|[k3 v3] [|[k4 v4] [|[k5 v5] [|[k6 v6] [|]]]]]]];
    try discriminate Hk.
  cbn in Hk. by injection Hk as -> -> -> -> -> ->.
Qed.

(** X17: a supervisor can tell how the script started from its first line
    and its exit status: the readiness signal is printed exactly once, as
    the first document, when the shell was created, and then the status is
    0; it is never printed when the import or the creation of the shell
    failed, and then the status is 1 and no line of the input is answered. *)
Theorem ready_signal_first_and_once {S : Type} `{!Interpreter S}
    (loads : string → exn + pyval) (start : startup S) stdin :
  let out := (program loads start stdin).1 in
  let status := (program loads start stdin).2 in
  match start with
  | Started s =>
      status = 0 ∧ out = ready_signal :: (main loads s stdin).2
      ∧ List.filter is_ready out = [ready_signal]
  | _ =>
      status = 1 ∧ List.filter is_ready out = [] ∧ (length out ≤ 1)%nat
  end.
Proof.
  destruct start as [msg sys_path| |s];
    [repeat split; cbn; first [reflexivity | lia]..|].
  cbn [program fst snd]. do 2 (split; [done|]).
  change (List.filter is_ready (ready_signal :: (main loads s stdin).2))
    with (ready_signal :: List.filter is_ready (main loads s stdin).2).
  by rewrite main_no_ready.
Qed.

(** ** The lines of the protocol *)

Lemma occurs_app c a b : occurs c (a +:+ b) = occurs c a || occurs c b.
Proof.
  induction a as [|x a IH]; [done|]. rewrite string_app_cons. cbn [occurs].
  by rewrite IH, orb_assoc.
Qed.

Lemma occurs_escape_char c : occurs LF (escape_char c) = false.
Proof. destruct c as [[] [] [] [] [] [] [] []]; reflexivity. Qed.

Lemma occurs_escape_string s : occurs LF (escape_string s) = false.
Proof.
  induction s as [|c s IH]; [done|]. cbn [escape_string].
  by rewrite occurs_app, occurs_escape_char, IH.
Qed.

Lemma occurs_json_string s : occurs LF (json_string s) = false.
Proof.
  unfold json_string. by rewrite !occurs_app, occurs_escape_string.
Qed.

Lemma occurs_string_of_uint d : occurs LF (NilEmpty.string_of_uint d) = false.
Proof. induction d; cbn [NilEmpty.string_of_uint occurs]; by rewrite ?IHd. Qed.

Lemma occurs_repr_int n : occurs LF (repr_int n) = false.
Proof.
  unfold repr_int. destruct n as [|p|p]; [done| |].
  - unfold Z.to_int, NilZero.string_of_int, NilZero.string_of_uint.
    pose proof (occurs_string_of_uint (Pos.to_uint p)).
    by destruct (Pos.to_uint p).
  - unfold Z.to_int, NilZero.string_of_int, NilZero.string_of_uint.
    pose proof (occurs_string_of_uint (Pos.to_uint p)) as Hd.
    change (occurs LF (String "-" ?t)) with (occurs LF t).
    by destruct (Pos.to_uint p).
Qed.

Lemma occurs_json_text j : occurs LF (json_text j) = false.
Proof.
  induction j as [|b|n|s|l IH|ms IH] using json_nested_ind.
  - reflexivity.
  - by destruct b.
  - apply occurs_repr_int.
  - apply occurs_json_string.
  - rewrite json_text_JArr, !occurs_app.
    assert (occurs LF (items_text l) = false) as ->; [|done].
    induction IH as [|x l Hx _ IHl]; [done|].
    destruct l as [|y l]; [done|].
    change (items_text (x :: y :: l))
      with (json_text x +:+ ", " +:+ items_text (y :: l)).
    by rewrite !occurs_app, Hx, IHl.
  - rewrite json_text_JObj, !occurs_app.
    assert (occurs LF (members_text ms) = false) as ->; [|done].
    induction IH as [|[k x] ms Hx _ IHms]; [done|]. cbn [snd] in Hx.
    destruct ms as [|[k' y] ms].
    + cbn [members_text]. by rewrite !occurs_app, occurs_json_string, Hx.
    + change (members_text ((k, x) :: (k', y) :: ms))
        with (json_string k +:+ ": " +:+ json_text x +:+ ", "
              +:+ members_text ((k', y) :: ms)).
      by rewrite !occurs_app, occurs_json_string, Hx, IHms.
Qed.

(** X18: every document that is printed fits on one line and can be read
    back: the text that [json.dumps] writes for it holds no line feed, so
    that a line of the output is exactly one document, and decoding the text
    gives the document again. *)
Theorem printed_document_is_one_line {S : Type} `{!Interpreter S}
    (loads : string → exn + pyval) (s : S) stdin :
  Forall (λ response,
            occurs LF (json_text response) = false
            ∧ json_decode (json_text response) = Some response)
    (main loads s stdin).2.
Proof.
  apply Forall_forall. intros response _.
  split; [apply occurs_json_text|apply json_decode_json_text].
Qed.

Lemma rstrip_all_space w : all_space w = true → rstrip w = "".
Proof.
  induction w as [|c w IH]; [done|]. cbn [all_space rstrip].
  intros [Hc Hw]%andb_true_iff. by rewrite (IH Hw), Hc.
Qed.

Lemma rstrip_app_space t w : all_space w = true → rstrip (t +:+ w) = rstrip t.
Proof.
  intros Hw. induction t as [|c t IH]; [by apply rstrip_all_space|].
  rewrite string_app_cons. cbn [rstrip]. by rewrite IH.
Qed.

Lemma rstrip_visible t : ends_visible t = true → rstrip t = t.
Proof.
  induction t as [|c t IH]; [done|]. cbn [rstrip].
  destruct t as [|c' t].
  - cbn. by intros ->%negb_true_iff.
  - intros Hv. change (ends_visible (String c (String c' t)))
      with (ends_visible (String c' t)) in Hv.
    by rewrite (IH Hv).
Qed.

Lemma ends_visible_app a b : b ≠ "" → ends_visible (a +:+ b) = ends_visible b.
Proof.
  intros Hb. induction a as [|c a IH]; [done|]. rewrite string_app_cons.
  destruct (a +:+ b) as [|c' t] eqn:Hab.
  - destruct a; [by destruct b|discriminate Hab].
  - change (ends_visible (String c (String c' t)))
      with (ends_visible (String c' t)).
    done.
Qed.

Lemma ends_visible_string_of_uint d :
  d ≠ Decimal.Nil → ends_visible (NilEmpty.string_of_uint d) = true.
Proof.
  induction d as [|d IH|d IH|d IH|d IH|d IH|d IH|d IH|d IH|d IH|d IH];
    [done|..]; intros _; cbn [NilEmpty.string_of_uint];
    (destruct d; [reflexivity|..]; apply IH; discriminate).
Qed.

Lemma ends_visible_repr_int n : ends_visible (repr_int n) = true.
Proof.
  unfold repr_int. destruct n as [|p|p]; [done| |];
    unfold Z.to_int, NilZero.string_of_int, NilZero.string_of_uint;
    pose proof (DecimalPos.Unsigned.to_uint_nonnil p) as Hnil;
    pose proof (ends_visible_string_of_uint _ Hnil) as Hv;
    destruct (Pos.to_uint p); done.
Qed.

Lemma ends_visible_json_text j : ends_visible (json_text j) = true.
Proof.
  destruct j as [|[]|n|s|l|ms]; try reflexivity.
  - apply ends_visible_repr_int.
  - unfold json_text, json_string.
    rewrite <- string_app_assoc, ends_visible_app; [done|by unfold quote].
  - rewrite json_text_JArr, <- string_app_assoc, ends_visible_app; done.
  - rewrite json_text_JObj, <- string_app_assoc, ends_visible_app; done.
Qed.

Lemma number_start_visible c : number_start c = true → is_space c = false.
Proof. destruct c as [[] [] [] [] [] [] [] []]; by vm_compute. Qed.

Lemma lstrip_json_text j rest : lstrip (json_text j +:+ rest) = json_text j +:+ rest.
Proof.
  assert (∃ c t, json_text j = String c t ∧ is_space c = false)
    as (c & t & -> & Hc).
  { destruct j as [|[]|n|s|l|ms]; try (by do 2 eexists).
    destruct (repr_int_head n) as (c & t & Hct & Hc).
    exists c, t. split; [done|]. by apply number_start_visible. }
  rewrite string_app_cons. cbn [lstrip]. by rewrite Hc.
Qed.

(** [str.strip] removes the end of the line and nothing of the text. *)
Lemma strip_json_line j : strip (json_text j +:+ newline) = json_text j.
Proof.
  unfold strip. rewrite lstrip_json_text, rstrip_app_space by reflexivity.
  apply rstrip_visible, ends_visible_json_text.
Qed.

(** X19: a client that writes the text of a request object and a line
    feed has its request understood: the line is decoded to the value of the
    object, its [code] (or the empty string) is executed, and the response
    is the result of that execution when it can be serialized. *)
Theorem request_line_understood {S : Type} `{!Interpreter S} (s : S) ms :
  let line := json_text (JObj ms) +:+ newline in
  let items := dict_of_members ms [] in
  json_loads (strip line) = inr (PDict items)
  ∧ iteration json_loads s line
    = let '(s', r) := execute_code s (dict_get items "code" (PStr "")) in
      (s', Some match to_json (response_to_py r (dict_get items "executionId" PNone)
                                 (bool_decide (error r = None))) with
                | inr j => j
                | inl e => internal_error_response e
                end).
Proof.
  intros line items.
  assert (json_loads (strip line) = inr (PDict items)) as Hl.
  { subst line. rewrite strip_json_line. unfold json_loads.
    by rewrite json_decode_json_text. }
  split; [done|]. by apply iteration_dict.
Qed.

(** ** Instances of the further properties *)

Lemma json_loads_no_interrupt : no_interrupt_from_decoder json_loads.
Proof. intros text e He. rewrite (json_loads_class _ _ He). discriminate. Qed.

Lemma display_loop_concatenates_witness :
  appended_by (for_each process_display_output [payload_text_only; payload_html])
    (session_value PNone) initial_result
  = concat (map (λ o, appended_by (process_display_output o)
                        (session_value PNone) initial_result)
              [payload_text_only; payload_html]).
Proof.
  apply (display_loop_concatenates (session_value PNone) initial_result
           [payload_text_only; payload_html]).
  reflexivity.
Defined.

Lemma display_keeps_every_known_kind_witness :
  ∃ b, b ∈ appended_by (process_display_output payload_html)
             (session_value PNone) initial_result
       ∧ type b = "html"
       ∧ metadata b = metadata_get (default ∅ (out_metadata payload_html)) "text/html"
       ∧ data b = PStr "<b>x</b>".
Proof.
  apply (display_keeps_every_known_kind (session_value PNone) initial_result
           payload_html
           {["text/html" := PStr "<b>x</b>"; "text/plain" := PStr "<HTML object>"]}
           "text/html" "html" (PStr "<b>x</b>")).
  - reflexivity.
  - reflexivity.
  - unfold kind_table. do 3 right. left.
  - reflexivity.
Defined.

Lemma one_response_per_line_witness :
  length (main json_loads session_print_then_error
            [Line line_not_json; Line line_request]).2
  = length [Line line_not_json; Line line_request].
Proof.
  apply (one_response_per_line json_loads session_print_then_error
           [Line line_not_json; Line line_request]).
  - exact json_loads_no_interrupt.
  - repeat constructor; discriminate.
Defined.

Lemma main_app_witness :
  main json_loads session_print_then_error ([Line line_not_json] ++ [Line line_request])
  = ((main json_loads
        (main json_loads session_print_then_error [Line line_not_json]).1
        [Line line_request]).1,
     (main json_loads session_print_then_error [Line line_not_json]).2
     ++ (main json_loads
           (main json_loads session_print_then_error [Line line_not_json]).1
           [Line line_request]).2).
Proof.
  apply (main_app json_loads session_print_then_error
           [Line line_not_json] [Line line_request]).
  - exact json_loads_no_interrupt.
  - repeat constructor; discriminate.
Defined.

Lemma result_sent_iff_serializable_witness :
  let items := [(PStr "code", PStr "print('a'); 1/0"); (PStr "executionId", PInt 7)] in
  let r := (execute_code session_print_then_error
              (dict_get items "code" (PStr ""))).2 in
  ∃ response,
    (iteration json_loads session_print_then_error line_request).2 = Some response
    ∧ (json_keys response = result_keys
       ↔ serializable (dict_get items "executionId" PNone)
         ∧ Forall (λ b, serializable (data b) ∧ serializable (metadata b))
             (outputs r))
    ∧ (json_keys response = result_keys ∨ json_keys response = error_keys).
Proof.
  apply (result_sent_iff_serializable json_loads session_print_then_error
           line_request
           [(PStr "code", PStr "print('a'); 1/0"); (PStr "executionId", PInt 7)]).
  reflexivity.
Defined.

Lemma execution_id_echoed_witness :
  json_get
    (default JNull (iteration json_loads session_print_then_error line_request).2)
    "executionId"
  = Some (JNum 7).
Proof.
  apply (execution_id_echoed json_loads session_print_then_error line_request
           [(PStr "code", PStr "print('a'); 1/0"); (PStr "executionId", PInt 7)]
           (JNum 7)).
  - reflexivity.
  - reflexivity.
  - exact I.
  - reflexivity.
  - reflexivity.
Defined.

Lemma blank_line_protocol_error_witness :
  main json_loads session_print_then_error [Line line_blank; Line line_request]
  = ((main json_loads session_print_then_error [Line line_request]).1,
     protocol_error_response
       (JSONDecodeError "Expecting value: line 1 column 1 (char 0)")
     :: (main json_loads session_print_then_error [Line line_request]).2).
Proof.
  apply (blank_line_protocol_error session_print_then_error line_blank
           [Line line_request]).
  - discriminate.
  - reflexivity.
Defined.

Lemma non_object_request_internal_error_witness :
  let response :=
    internal_error_response
      (AttributeError "'list' object has no attribute 'get'") in
  main json_loads session_print_then_error [Line line_list; Line line_request]
  = ((main json_loads session_print_then_error [Line line_request]).1,
     response :: (main json_loads session_print_then_error [Line line_request]).2)
  ∧ (json_get response "error" ≫= λ e, json_get e "type") = Some (JStr "InternalError")
  ∧ json_get response "executionId" = None
  ∧ json_get response "success" = None.
Proof.
  apply (non_object_request_internal_error json_loads session_print_then_error
           line_list (PList [PInt 1; PInt 2]) [Line line_request]).
  - discriminate.
  - reflexivity.
  - discriminate.
Defined.

(** ** Plain values *)

Section PlainProperties.
Context {S : Type} `{!Interpreter S}.

(** X20: a display call whose data has [text/plain] and nothing else gets
    exactly one block, the text block with that data and the metadata of
    [text/plain]. *)
Theorem plain_display_one_text_block (s : S) r x metadata :
  appended_by
    (process_display_output
       {| out_data := Some {["text/plain" := x]}; out_metadata := metadata |})
    s r
  = [{| type := "text"; data := x;
        metadata := metadata_get (default ∅ metadata) "text/plain" |}].
Proof.
  erewrite appended_by_add_blocks by apply process_display_output_run.
  unfold display_blocks. cbn [out_data out_metadata].
  unfold json_block_for, before_json, after_json.
  rewrite (lookup_singleton_ne "text/plain" "application/json") by done.
  cbn [fst]. rewrite map_size_singleton. cbn [Nat.eqb].
  rewrite !block_for_None by (by apply lookup_singleton_ne).
  cbn [app]. by rewrite (block_for_Some _ _ _ _ x) by apply lookup_singleton_eq.
Qed.

(** X21: a value of the last expression whose rendering has [text/plain]
    and nothing else gets exactly one block, the text block with that
    rendering, whatever the outputs built before it hold. *)
Theorem plain_value_one_text_block (s : S) r value s' x metadata :
  is_None value = false →
  is_dict_or_list value = false →
  display_format s value = (s', inr ({["text/plain" := x]}, metadata)) →
  process_result value (s, r)
  = ((s', add_blocks r [{| type := "text"; data := x;
                           metadata := metadata_get metadata "text/plain" |}]),
     inr tt).
Proof.
  intros Hn Hdl Hfmt. rewrite process_result_run, Hn, Hdl, Hfmt.
  unfold formatted_blocks, json_block_for, before_json, after_json.
  rewrite (lookup_singleton_ne "text/plain" "application/json") by done.
  cbn [fst snd].
  rewrite !block_for_None by (by apply lookup_singleton_ne).
  assert (output_added_for ({["text/plain" := x]} : gmap string pyval) = false)
    as ->.
  { unfold output_added_for.
    by rewrite !has_key_None by (by apply lookup_singleton_ne). }
  cbn [negb orb app].
  by rewrite (block_for_Some _ _ _ _ x) by apply lookup_singleton_eq.
Qed.

End PlainProperties.

Lemma plain_value_one_text_block_witness :
  process_result (PInt 42) (session_value (PInt 42), initial_result)
  = ((session_value (PInt 42),
      add_blocks initial_result
        [{| type := "text"; data := PStr "42";
            metadata := metadata_get ∅ "text/plain" |}]),
     inr tt).
Proof.
  apply (plain_value_one_text_block (session_value (PInt 42)) initial_result
           (PInt 42) (session_value (PInt 42)) (PStr "42") ∅).
  - reflexivity.
  - reflexivity.
  - reflexivity.
Defined.
